(** * The status-polling engine of the AI tools monitor

    A shallow embedding of [checkToolStatus] and [checkAllToolsStatus]
    (the polling server, lines 13-267), of the routes of that server
    (lines 281-403) and of the simulated monitor of [src/server.ts]
    ([randomizeStatuses]), followed by the properties the specification
    states about them and by further properties read off the code.

    The asynchronous code is sequential (every promise is awaited), so it
    is embedded as a state-and-exception monad over the module-level
    [tools] array and a trace of the calls made to the outside world.
    What the outside world answers (the result of a [fetch], the reading
    of the clock, whether the telemetry agent throws) is a parameter, the
    [World]; the general theorems quantify over all worlds.

    Modelling choices:
    - a call of the [newrelic] agent may throw, and so does the
      interpolation of a value that has no conversion to a string;
      [console.error], [new Date()] and [setTimeout] do not;
    - the [latencyMs] computed at line 160 is never read and is left out;
    - one sweep runs at a time (the timer of lines 274-279 is not
      modelled), so a sweep is a function from state to state;
    - a route reads the store it is given, which can be the store at any
      point of a sweep; what a route throws goes to the error middleware;
    - in the simulated monitor the value of each
      [Math.floor(a + Math.random() * b)] is supplied by the world. *)

From Stdlib Require Import ZArith String List Lia Bool Floats DecimalString.
From stdpp Require Import base list strings.
From Equations Require Import Equations.

Set Warnings "-register-all".
Local Open Scope string_scope.
Local Open Scope list_scope.

(** ** JavaScript values met by the engine *)

(** The value [response.json()] resolves to. The members of an object are
    kept in document order; a later duplicate key overrides an earlier
    one, as [JSON.parse] does. *)
Inductive json : Type :=
| JNull
| JBool (b : bool)
| JNum (x : float)
| JStr (s : string)
| JArr (items : list json)
| JObj (members : list (string * json)).

(** JavaScript truthiness ([v || d], [!!v], [if (v)]). *)
Definition truthy (v : json) : bool :=
  match v with
  | JNull => false
  | JBool b => b
  | JNum x => negb (PrimFloat.eqb x 0 || PrimFloat.is_nan x)
  | JStr s => negb (String.eqb s "")
  | JArr _ => true
  | JObj _ => true
  end.

Fixpoint lastMember (key : string) (members : list (string * json)) : option json :=
  match members with
  | [] => None
  | (k, v) :: rest =>
      match lastMember key rest with
      | Some v' => Some v'
      | None => if String.eqb k key then Some v else None
      end
  end.

(** [v.key] for a value [v] that is neither [null] nor [undefined];
    [None] is [undefined]. None of the keys read by the engine ([status],
    [indicator], [description]) exists on a built-in prototype. *)
Definition member (key : string) (v : json) : option json :=
  match v with
  | JObj members => lastMember key members
  | _ => None
  end.

(** [v?.key], where [None] is [undefined]. *)
Definition optMember (key : string) (v : option json) : option json :=
  match v with
  | None => None
  | Some JNull => None
  | Some v' => member key v'
  end.

(** [v || d]. *)
Definition orElse (v : option json) (d : json) : json :=
  match v with
  | Some x => if truthy x then x else d
  | None => d
  end.

(** Truthiness of a possibly [undefined] value. *)
Definition truthyOpt (v : option json) : bool :=
  match v with
  | Some x => truthy x
  | None => false
  end.

(** Whether the interpolation [`${v}`] of a parsed value returns. An
    object is converted by its [toString], which is the built-in one
    unless the object has a key of that name: the value of such a key is
    never a function, and the conversion throws a [TypeError]. An array
    is converted by joining the conversions of its elements. *)
Fixpoint interpolates (v : json) : bool :=
  match v with
  | JArr items => forallb interpolates items
  | JObj members =>
      match lastMember "toString" members with
      | Some _ => false
      | None => true
      end
  | _ => true
  end.

(** The message of that [TypeError]. *)
Definition cannotConvert : string := "Cannot convert object to primitive value".

(** [s.includes(sub)]. *)
Fixpoint includes (s sub : string) : bool :=
  String.prefix sub s
  || match s with
     | EmptyString => false
     | String _ s' => includes s' sub
     end.

(** Template interpolation [`${n}`] of an integer. *)
Definition numberToString (n : Z) : string :=
  NilZero.string_of_int (Z.to_int n).

(** What a [catch] clause can receive: an [Error] with its [message], or
    any other value, of which the engine only uses [String(error)]. *)
Inductive Thrown : Type :=
| ErrorObject (message : string)
| OtherValue (asString : string).

(** ** The data model (lines 13-46) *)

Inductive ToolId : Type := cursor | chatgpt | claude.

Definition ToolId_eqb (a b : ToolId) : bool :=
  match a, b with
  | cursor, cursor | chatgpt, chatgpt | claude, claude => true
  | _, _ => false
  end.

Inductive Verdict : Type := healthy | degraded | down | unknown.

Definition Verdict_eqb (a b : Verdict) : bool :=
  match a, b with
  | healthy, healthy | degraded, degraded | down, down | unknown, unknown => true
  | _, _ => false
  end.

Module ToolStatus.
Record t : Type := mk {
    id : ToolId;
    name : string;
    status : Verdict;
    lastChecked : string;
    latencyMs : option Z;
    error : option json
}.
End ToolStatus.

Module ToolConfig.
Record t : Type := mk {
    id : ToolId;
    name : string;
    statusUrl : string
}.
End ToolConfig.

(** The object [checkToolStatus] resolves to. *)
Module PollOutcome.
Record t : Type := mk {
    status : Verdict;
    latencyMs : option Z;
    error : option json
}.
End PollOutcome.

Definition toolConfigs : list ToolConfig.t :=
  [ ToolConfig.mk chatgpt "ChatGPT" "https://status.openai.com/api/v2/status.json";
    ToolConfig.mk claude "Claude" "https://status.claude.com/api/v2/status.json";
    ToolConfig.mk cursor "Cursor" "https://status.cursor.com/api/v2/status.json" ].

Definition CHECK_DELAY_MS : Z := 2000.
Definition CHECK_INTERVAL_MS : Z := 5 * 60 * 1000.
Definition REQUEST_TIMEOUT_MS : Z := 10000.
Definition MAX_RETRIES : nat := 2.

(** ** The outside world *)

(** A completed HTTP exchange: the status code and what [response.json()]
    gives, [None] when that promise rejects. *)
Record Response : Type := {
  resp_status : Z;
  resp_json : option json
}.

(** [response.ok]. *)
Definition ok (r : Response) : bool :=
  ((200 <=? resp_status r) && (resp_status r <=? 299))%Z.

(** How [await fetch(...)] ends: with a response, received [latencyMs]
    after [startTime], or with a rejection (the abort at
    [REQUEST_TIMEOUT_MS] is one of them). *)
Inductive Attempt : Type :=
| Completed (response : Response) (latencyMs : Z)
| Rejected (e : Thrown).

(** Calls that leave the process, and the writes to the [tools] array. *)
Inductive Event : Type :=
| Fetch (url : string)
| Delay (ms : Z)
| StoreSet (index : nat) (record : ToolStatus.t)
| StorePush (record : ToolStatus.t)
| RecordCustomEvent (toolId : ToolId) (toolName : string) (status : Verdict)
    (latencyMs : Z) (hasError : bool)
| ConsoleError (toolName : string) (toolId : ToolId) (status : Verdict)
    (error : option json) (latencyMs : option Z)
| NoticeError (toolName : string) (detail : json) (toolId : ToolId)
    (previousStatus : Verdict) (latencyMs : Z) (errorMessage : option json)
| ConsoleErrorCaught (toolName : string) (e : Thrown).

(** The answers of the outside world, each a function of everything that
    happened so far (the call being answered is the last event).
    [newrelic] tells whether a call of the telemetry agent throws. *)
Record World : Type := {
  fetch : list Event -> Attempt;
  newrelic : list Event -> option Thrown;
  now : list Event -> string
}.

Record State : Type := {
  tools : list ToolStatus.t;
  trace : list Event
}.

(** ** The monad of the engine *)

Inductive Completion (A : Type) : Type :=
| Normal (a : A)
| Throw (e : Thrown).
Arguments Normal {A} a.
Arguments Throw {A} e.

Definition M (A : Type) : Type := State -> Completion A * State.

#[export] Instance M_ret : MRet M := fun A (a : A) s => (Normal a, s).

#[export] Instance M_bind : MBind M := fun A B (k : A -> M B) (m : M A) s =>
  match m s with
  | (Normal a, s') => k a s'
  | (Throw e, s') => (Throw e, s')
  end.

(** [try { body } catch (e) { handler e }]. *)
Definition tryCatch {A} (body : M A) (handler : Thrown -> M A) : M A :=
  fun s =>
    match body s with
    | (Normal a, s') => (Normal a, s')
    | (Throw e, s') => handler e s'
    end.

(** [throw e]. *)
Definition throw {A} (e : Thrown) : M A := fun s => (Throw e, s).

Definition emit (ev : Event) : State -> State :=
  fun s => {| tools := tools s; trace := trace s ++ [ev] |}.

Definition log (ev : Event) : M unit := fun s => (Normal tt, emit ev s).

Definition getTools : M (list ToolStatus.t) := fun s => (Normal (tools s), s).

(** [await delay(ms)]. *)
Definition delay (ms : Z) : M unit := log (Delay ms).

(** [tools.find((t) => t.id === i)] and [tools.findIndex((t) => t.id === i)]. *)
Definition findTool (i : ToolId) (l : list ToolStatus.t) : option ToolStatus.t :=
  List.find (fun t => ToolId_eqb (ToolStatus.id t) i) l.

Fixpoint findIndex (i : ToolId) (l : list ToolStatus.t) : option nat :=
  match l with
  | [] => None
  | t :: rest =>
      if ToolId_eqb (ToolStatus.id t) i then Some 0
      else option_map S (findIndex i rest)
  end.

(** ** [checkToolStatus] (lines 77-186) *)

(** Lines 102-158: what the outer [try] returns once [fetch] resolved.
    The inner [catch] is reached when [response.json()] rejects and when
    the body is the literal [null], on which [data.status] throws. *)
Definition onResponse (response : Response) (latencyMs : Z) : PollOutcome.t :=
  if ok response then
    match resp_json response with
    | None | Some JNull =>
        PollOutcome.mk unknown (Some latencyMs)
          (Some (JStr "Failed to parse status API response"))
    | Some data =>
        let indicator := optMember "indicator" (member "status" data) in
        let description :=
          orElse (optMember "description" (member "status" data)) (JStr "") in
        let byLatency :=
          PollOutcome.mk (if (latencyMs >? 2000)%Z then degraded else healthy)
            (Some latencyMs) None in
        match indicator with
        | Some (JStr i) =>
            if String.eqb i "none" then byLatency
            else if String.eqb i "minor" then
              PollOutcome.mk degraded (Some latencyMs)
                (Some (orElse (Some description) (JStr "Minor service outage")))
            else if String.eqb i "major" || String.eqb i "critical" then
              PollOutcome.mk down (Some latencyMs)
                (Some (orElse (Some description) (JStr ("Service status: " +:+ i))))
            else if String.eqb i "partial" then
              PollOutcome.mk degraded (Some latencyMs)
                (Some (orElse (Some description) (JStr "Partial outage detected")))
            else byLatency
        | _ => byLatency
        end
    end
  else if (resp_status response =? 429)%Z then
    PollOutcome.mk degraded (Some latencyMs)
      (Some (JStr "Rate limited - too many requests"))
  else if (resp_status response >=? 500)%Z then
    PollOutcome.mk down (Some latencyMs)
      (Some (JStr ("Server error: " +:+ numberToString (resp_status response))))
  else
    PollOutcome.mk down (Some latencyMs)
      (Some (JStr ("HTTP " +:+ numberToString (resp_status response)))).

(** Line 161: [error instanceof Error ? error.message : String(error)]. *)
Definition errorMessageOf (e : Thrown) : string :=
  match e with
  | ErrorObject message => message
  | OtherValue asString => asString
  end.

(** Lines 164-171: [lastError]. *)
Definition lastErrorOf (errorMessage : string) : string :=
  if includes errorMessage "aborted" || includes errorMessage "timeout" then
    "Request timeout"
  else if includes errorMessage "ECONNREFUSED" || includes errorMessage "ENOTFOUND" then
    "Connection failed"
  else errorMessage.

(** Lines 179-184: the outcome once no retry is left. *)
Definition onExhausted (lastError : string) : PollOutcome.t :=
  if includes lastError "Rate limited" || includes lastError "429" then
    PollOutcome.mk degraded None (Some (JStr lastError))
  else
    PollOutcome.mk down None (Some (JStr lastError)).

Section Engine.

Context (w : World).

(** [new Date().toISOString()]. *)
Definition newDateISO : M string := fun s => (Normal (now w (trace s)), s).

(** A call of the telemetry agent: it is recorded, and throws when the
    world says so. *)
Definition callNewrelic (ev : Event) : M unit :=
  fun s =>
    match newrelic w (trace (emit ev s)) with
    | Some e => (Throw e, emit ev s)
    | None => (Normal tt, emit ev s)
    end.

(** The recursion is on [retryCount], which grows up to [MAX_RETRIES]. *)
Equations? checkToolStatus (config : ToolConfig.t) (retryCount : nat) (s : State)
  : Completion PollOutcome.t * State by wf (MAX_RETRIES - retryCount) lt :=
checkToolStatus config retryCount s
  with fetch w (trace (emit (Fetch (ToolConfig.statusUrl config)) s)) => {
  | Completed response latencyMs =>
      (Normal (onResponse response latencyMs),
       emit (Fetch (ToolConfig.statusUrl config)) s)
  | Rejected error with lt_dec retryCount MAX_RETRIES => {
    | left _ =>
        checkToolStatus config (retryCount + 1)
          (emit (Delay (1000 * Z.of_nat (retryCount + 1)))
             (emit (Fetch (ToolConfig.statusUrl config)) s))
    | right _ =>
        (Normal (onExhausted (lastErrorOf (errorMessageOf error))),
         emit (Fetch (ToolConfig.statusUrl config)) s) } }.
Proof. lia. Qed.

(** ** [checkAllToolsStatus] (lines 188-267) *)

(** Lines 207-213. *)
Definition storeUpdated (config : ToolConfig.t) (updatedTool : ToolStatus.t) : M unit :=
  fun s =>
    match findIndex (ToolConfig.id config) (tools s) with
    | Some toolIndex =>
        (Normal tt,
         {| tools := <[toolIndex := updatedTool]> (tools s);
            trace := trace s ++ [StoreSet toolIndex updatedTool] |})
    | None =>
        (Normal tt,
         {| tools := tools s ++ [updatedTool];
            trace := trace s ++ [StorePush updatedTool] |})
    end.

(** Lines 215-247: the telemetry of one target. The message of the
    error of line 236 interpolates the diagnostic, which throws when the
    diagnostic has no conversion to a string. *)
Definition telemetry (updatedTool : ToolStatus.t) (result : PollOutcome.t)
    (oldStatus : Verdict) : M unit :=
  callNewrelic
    (RecordCustomEvent (ToolStatus.id updatedTool) (ToolStatus.name updatedTool)
       (ToolStatus.status updatedTool)
       (default 0%Z (ToolStatus.latencyMs updatedTool))
       (truthyOpt (ToolStatus.error updatedTool)));;
  if Verdict_eqb (PollOutcome.status result) down
     || truthyOpt (PollOutcome.error result)
  then
    log (ConsoleError (ToolStatus.name updatedTool) (ToolStatus.id updatedTool)
           (PollOutcome.status result) (PollOutcome.error result)
           (ToolStatus.latencyMs updatedTool));;
    if Verdict_eqb (PollOutcome.status result) down then
      if interpolates (orElse (ToolStatus.error updatedTool) (JStr "Unknown error"))
      then
        callNewrelic
          (NoticeError (ToolStatus.name updatedTool)
             (orElse (ToolStatus.error updatedTool) (JStr "Unknown error"))
             (ToolStatus.id updatedTool) oldStatus
             (default 0%Z (ToolStatus.latencyMs updatedTool))
             (ToolStatus.error updatedTool))
      else throw (ErrorObject cannotConvert)
    else mret tt
  else mret tt.

(** Lines 249-252: the delay before the next target. *)
Definition pacing (i : nat) : M unit :=
  if (i <? length toolConfigs - 1)%nat then delay CHECK_DELAY_MS else mret tt.

(** Lines 195-252: the body of the [try] for the target of index [i]. *)
Definition tryBlock (i : nat) (config : ToolConfig.t)
    (existingTool : option ToolStatus.t) : M unit :=
  result ← checkToolStatus config 0;
  let oldStatus :=
    match existingTool with
    | Some t => ToolStatus.status t
    | None => unknown
    end in
  date ← newDateISO;
  let updatedTool :=
    ToolStatus.mk (ToolConfig.id config) (ToolConfig.name config)
      (PollOutcome.status result) date
      (PollOutcome.latencyMs result) (PollOutcome.error result) in
  storeUpdated config updatedTool;;
  telemetry updatedTool result oldStatus;;
  pacing i.

(** Line 262: [error instanceof Error ? error.message : 'Unknown error']. *)
Definition caughtMessage (e : Thrown) : string :=
  match e with
  | ErrorObject message => message
  | OtherValue _ => "Unknown error"
  end.

(** Lines 258-263: the record written by the [catch]. *)
Definition markUnknown (t : ToolStatus.t) (date : string) (e : Thrown) : ToolStatus.t :=
  ToolStatus.mk (ToolStatus.id t) (ToolStatus.name t) unknown date
    (ToolStatus.latencyMs t) (Some (JStr (caughtMessage e))).

(** Lines 256-264: the write of the [catch]. *)
Definition storeUnknown (config : ToolConfig.t) (e : Thrown) : M unit :=
  fun s =>
    match findIndex (ToolConfig.id config) (tools s) with
    | Some toolIndex =>
        match tools s !! toolIndex with
        | Some t =>
            let record := markUnknown t (now w (trace s)) e in
            (Normal tt,
             {| tools := <[toolIndex := record]> (tools s);
                trace := trace s ++ [StoreSet toolIndex record] |})
        | None => (Normal tt, s)
        end
    | None => (Normal tt, s)
    end.

(** Lines 253-265: the [catch]. *)
Definition catchBlock (config : ToolConfig.t) (e : Thrown) : M unit :=
  log (ConsoleErrorCaught (ToolConfig.name config) e);;
  storeUnknown config e.

(** Lines 191-265: one turn of the [for] loop. *)
Definition iteration (i : nat) (config : ToolConfig.t) : M unit :=
  l ← getTools;
  let existingTool := findTool (ToolConfig.id config) l in
  tryCatch (tryBlock i config existingTool) (catchBlock config).

(** The [for] loop from index [i] on, [rest] being [toolConfigs.slice(i)]. *)
Fixpoint forLoop (i : nat) (rest : list ToolConfig.t) : M unit :=
  match rest with
  | [] => mret tt
  | config :: rest' => iteration i config;; forLoop (S i) rest'
  end.

Definition checkAllToolsStatus : M unit := forLoop 0 toolConfigs.

(** Lines 57-64: the array [tools] when the module is loaded. *)
Definition initialTools : list ToolStatus.t :=
  List.map
    (fun config =>
       ToolStatus.mk (ToolConfig.id config) (ToolConfig.name config)
         unknown (now w []) None None)
    toolConfigs.

Definition initialState : State := {| tools := initialTools; trace := [] |}.

End Engine.

(** * The query surface (lines 281-403) *)

(** [t.id] as the string it is at run time (line 13). *)
Definition ToolId_toString (i : ToolId) : string :=
  match i with
  | cursor => "cursor"
  | chatgpt => "chatgpt"
  | claude => "claude"
  end.

Module Http.

(** A value of [req.query]: a string, or the array or the plain object
    that the query parser builds for a repeated or bracketed key
    ([?tool=a&tool=b], [?tool[k]=v]); the members of an array and of an
    object are such values again. *)
Inductive QueryValue : Type :=
| QText (s : string)
| QArr (items : list QueryValue)
| QObj (members : list (string * QueryValue)).

(** What reaches the error middleware, through the two properties it
    reads, [err.name] and [err.message]; [None] is [undefined]. *)
Record Raised : Type := {
  raisedName : option string;
  raisedMessage : option string
}.

(** The calls of the routes to the telemetry agent and to the console. *)
Inductive Call : Type :=
| HealthCheckEvent (timestamp : string)
| RecordMetric (name : string) (value : nat)
| LogToolsRetrieved (healthyCount degradedCount downCount totalTools : nat)
| WarnToolNotFound (toolId : string)
| LogToolRetrieved (toolId : ToolId) (toolName : string) (status : Verdict)
    (latencyMs : option Z)
| NoticeTestError (error : Raised) (errorType toolName : QueryValue)
| NoticeRouteError (err : Raised) (route method : string) (statusCode : Z)
| LogErrorOccurred (err : Raised) (route method : string) (statusCode : Z).

(** The JSON bodies the routes send. *)
Inductive Body : Type :=
| HealthBody (time : string)
| ToolsBody (tools : list ToolStatus.t)
| ToolBody (tool : ToolStatus.t)
| ErrorBody (error : string) (message : option string).

Record Reply : Type := {
  code : Z;
  body : Body
}.

(** The surroundings of a request: whether a call of the telemetry agent
    throws, the clock, [process.env.NODE_ENV], and [req.path],
    [req.method] and [res.statusCode] as the error middleware reads
    them. *)
Record Env : Type := {
  agentThrows : list Call -> option Raised;
  clock : list Call -> string;
  nodeEnv : option string;
  path : string;
  method : string;
  statusCode : Z
}.

Inductive Result (A : Type) : Type :=
| Replied (a : A)
| Raise (e : Raised).
Arguments Replied {A} a.
Arguments Raise {A} e.

Definition H (A : Type) : Type := list Call -> Result A * list Call.

#[export] Instance H_ret : MRet H := fun A (a : A) calls => (Replied a, calls).

#[export] Instance H_bind : MBind H := fun A B (k : A -> H B) (m : H A) calls =>
  match m calls with
  | (Replied a, calls') => k a calls'
  | (Raise e, calls') => (Raise e, calls')
  end.

(** [throw e]. *)
Definition raise {A} (e : Raised) : H A := fun calls => (Raise e, calls).

(** A call of the console. *)
Definition say (c : Call) : H unit := fun calls => (Replied tt, calls ++ [c]).

Section Routes.

Context (env : Env).

(** A call of the telemetry agent, which may throw. *)
Definition agentCall (c : Call) : H unit :=
  fun calls =>
    match agentThrows env (calls ++ [c]) with
    | Some e => (Raise e, calls ++ [c])
    | None => (Replied tt, calls ++ [c])
    end.

(** [new Date().toISOString()]. *)
Definition today : H string := fun calls => (Replied (clock env calls), calls).

(** [res.json(b)] and [res.status(n).json(b)]. *)
Definition sendJson (b : Body) : H Reply := mret {| code := 200; body := b |}.

Definition sendStatusJson (n : Z) (b : Body) : H Reply := mret {| code := n; body := b |}.

(** Lines 281-286: [GET /health]. *)
Definition healthRoute : H Reply :=
  timestamp ← today;
  agentCall (HealthCheckEvent timestamp);;
  time ← today;
  sendJson (HealthBody time).

(** [tools.filter((t) => t.status === v).length]. *)
Definition countStatus (v : Verdict) (l : list ToolStatus.t) : nat :=
  length (List.filter (fun t => Verdict_eqb (ToolStatus.status t) v) l).

(** Lines 288-307: [GET /tools], on the store [l]. *)
Definition toolsRoute (l : list ToolStatus.t) : H Reply :=
  let healthyCount := countStatus healthy l in
  let degradedCount := countStatus degraded l in
  let downCount := countStatus down l in
  agentCall (RecordMetric "Custom/Tools/Healthy" healthyCount);;
  agentCall (RecordMetric "Custom/Tools/Degraded" degradedCount);;
  agentCall (RecordMetric "Custom/Tools/Down" downCount);;
  say (LogToolsRetrieved healthyCount degradedCount downCount (length l));;
  sendJson (ToolsBody l).

(** Lines 309-324: [GET /tools/:id], on the store [l]. *)
Definition toolByIdRoute (l : list ToolStatus.t) (id : string) : H Reply :=
  match List.find (fun t => String.eqb (ToolId_toString (ToolStatus.id t)) id) l with
  | None =>
      say (WarnToolNotFound id);;
      sendStatusJson 404 (ErrorBody "Tool not found" None)
  | Some tool =>
      say (LogToolRetrieved (ToolStatus.id tool) (ToolStatus.name tool)
             (ToolStatus.status tool) (ToolStatus.latencyMs tool));;
      sendJson (ToolBody tool)
  end.

(** [(v as string) || d] on a query value. *)
Definition queryOr (v : option QueryValue) (d : string) : QueryValue :=
  match v with
  | Some (QText s) => if String.eqb s "" then QText d else QText s
  | Some (QArr items) => QArr items
  | Some (QObj members) => QObj members
  | None => QText d
  end.

(** [`${v}`], the conversion of a query value to a string: a string is
    itself; an array joins the conversions of its members with commas;
    a plain object is "[object Object]" by the inherited [toString],
    unless it has a member of its own under the key [toString], which
    hides the inherited method and is not a function: the conversion
    then throws a [TypeError], here [None]. *)
Fixpoint render (v : QueryValue) : option string :=
  match v with
  | QText s => Some s
  | QArr items =>
      (fix join (l : list QueryValue) : option string :=
         match l with
         | [] => Some ""
         | x :: rest =>
             match render x, rest with
             | Some text, [] => Some text
             | Some text, _ :: _ =>
                 match join rest with
                 | Some more => Some (text +:+ "," +:+ more)
                 | None => None
                 end
             | None, _ => None
             end
         end) items
  | QObj members =>
      if existsb (fun member => String.eqb (fst member) "toString") members
      then None
      else Some "[object Object]"
  end.

Definition newError (name message : string) : Raised :=
  {| raisedName := Some name; raisedMessage := Some message |}.

(** The [TypeError] of a conversion that fails. *)
Definition typeError : Raised := newError "TypeError" cannotConvert.

(** Lines 331-349: the [switch] on [errorType], which compares with
    [===]: the error it builds, or the [TypeError] that the template
    literal of line 335 throws. *)
Definition simulatedError (errorType toolName : QueryValue) : Result Raised :=
  match errorType with
  | QText s =>
      if String.eqb s "tool-error" then
        match render toolName with
        | Some text =>
            Replied (newError "ToolMonitoringError"
                       ("Simulated tool monitoring error: " +:+ text))
        | None => Raise typeError
        end
      else if String.eqb s "timeout" then
        Replied (newError "TimeoutError" "Simulated timeout error")
      else if String.eqb s "validation" then
        Replied (newError "ValidationError" "Simulated validation error")
      else Replied (newError "GenericError" "Simulated generic error")
  | QArr _ | QObj _ => Replied (newError "GenericError" "Simulated generic error")
  end.

(** A step that makes no call. *)
Definition pure {A} (r : Result A) : H A := fun calls => (r, calls).

(** Lines 326-360: [GET /test-error]. *)
Definition testErrorRoute (type tool : option QueryValue) : H Reply :=
  let errorType := queryOr type "generic" in
  let toolName := queryOr tool "unknown" in
  error ← pure (simulatedError errorType toolName);
  agentCall (NoticeTestError error errorType toolName);;
  raise error.

(** [n || 500] on a number. *)
Definition orFiveHundred (n : Z) : Z := if (n =? 0)%Z then 500%Z else n.

(** Lines 379-403: the error-handling middleware. *)
Definition errorMiddleware (err : Raised) : H Reply :=
  agentCall (NoticeRouteError err (path env) (method env)
               (orFiveHundred (statusCode env)));;
  say (LogErrorOccurred err (path env) (method env)
         (orFiveHundred (statusCode env)));;
  sendStatusJson 500
    (ErrorBody "Internal server error"
       (match nodeEnv env with
        | Some mode => if String.eqb mode "development" then raisedMessage err else None
        | None => None
        end)).

(** A route with the error middleware behind it: what a handler throws
    is handed to the middleware (line 359). *)
Definition served (route : H Reply) : H Reply :=
  fun calls =>
    match route calls with
    | (Replied r, calls') => (Replied r, calls')
    | (Raise e, calls') => errorMiddleware e calls'
    end.

End Routes.

End Http.

(** * The simulated monitor ([src/server.ts], lines 13-155) *)

Module Demo.

Inductive ToolId : Type := cursor | coderabbit | chatgpt | claude | copilot.

Module ToolStatus.
Record t : Type := mk {
  id : ToolId;
  name : string;
  status : Verdict;
  lastChecked : string;
  latencyMs : option Z;
  error : option string
}.
End ToolStatus.

(** [console.error], [console.warn] and [console.log]. *)
Inductive Level : Type := LevelError | LevelWarn | LevelInfo.

Inductive Event : Type :=
| StatusUpdate (toolId : ToolId) (toolName : string) (status : Verdict)
    (latencyMs : Z) (hasError : bool)
| Console (level : Level) (message : string) (toolId : ToolId) (toolName : string)
    (oldStatus newStatus : Verdict) (latencyMs : option Z)
| NoticeError (message : string) (toolId : ToolId) (toolName : string)
    (previousStatus : Verdict) (latencyMs : Z).

(** The surroundings of the simulation. [floorRandom n a b] is the value
    of [Math.floor(a + Math.random() * b)] at the [n]-th call of
    [Math.random]: the double-precision arithmetic is not modelled, and
    nothing is assumed of its result. *)
Record World : Type := {
  floorRandom : nat -> Z -> Z -> Z;
  agentThrows : list Event -> option Thrown;
  now : list Event -> string
}.

(** What a pass over the array changes before [tools] is assigned. *)
Record Run : Type := {
  trace : list Event;
  draws : nat
}.

Definition D (A : Type) : Type := Run -> Completion A * Run.

#[export] Instance D_ret : MRet D := fun A (a : A) r => (Normal a, r).

#[export] Instance D_bind : MBind D := fun A B (k : A -> D B) (m : D A) r =>
  match m r with
  | (Normal a, r') => k a r'
  | (Throw e, r') => (Throw e, r')
  end.

(** [`${status}`]. *)
Definition statusName (v : Verdict) : string :=
  match v with
  | healthy => "healthy"
  | degraded => "degraded"
  | down => "down"
  | unknown => "unknown"
  end.

(** Lines 75 and 77: [statuses[index] ?? 'unknown']. *)
Definition statusAt (index : Z) : Verdict :=
  if (index =? 0)%Z then healthy
  else if (index =? 1)%Z then degraded
  else if (index =? 2)%Z then down
  else unknown.

(** [!!error] on an optional string. *)
Definition hasText (error : option string) : bool :=
  match error with
  | Some text => negb (String.eqb text "")
  | None => false
  end.

Section Simulation.

Context (w : World).

Definition draw (a b : Z) : D Z :=
  fun r => (Normal (floorRandom w (draws r) a b),
            {| trace := trace r; draws := S (draws r) |}).

Definition today : D string := fun r => (Normal (now w (trace r)), r).

Definition say (ev : Event) : D unit :=
  fun r => (Normal tt, {| trace := trace r ++ [ev]; draws := draws r |}).

Definition agentCall (ev : Event) : D unit :=
  fun r =>
    match agentThrows w (trace r ++ [ev]) with
    | Some e => (Throw e, {| trace := trace r ++ [ev]; draws := draws r |})
    | None => (Normal tt, {| trace := trace r ++ [ev]; draws := draws r |})
    end.

(** Lines 78-81: [latency]. *)
Definition drawLatency (status : Verdict) : D (option Z) :=
  if Verdict_eqb status down then mret None
  else
    latency ← draw 100 (if Verdict_eqb status degraded then 800 else 300);
    mret (Some latency).

(** Lines 105-150: the log of a status change. *)
Definition logChange (t updatedTool : ToolStatus.t) : D unit :=
  let status := ToolStatus.status updatedTool in
  if negb (Verdict_eqb (ToolStatus.status t) status) then
    let logMessage :=
      "Tool status changed: " +:+ ToolStatus.name updatedTool
      +:+ " is now " +:+ statusName status in
    say (Console
           (if Verdict_eqb status down then LevelError
            else if Verdict_eqb status degraded then LevelWarn
            else LevelInfo)
           logMessage (ToolStatus.id updatedTool) (ToolStatus.name updatedTool)
           (ToolStatus.status t) status (ToolStatus.latencyMs updatedTool));;
    if Verdict_eqb status down then
      agentCall
        (NoticeError ("Tool " +:+ ToolStatus.name updatedTool +:+ " is down")
           (ToolStatus.id updatedTool) (ToolStatus.name updatedTool)
           (ToolStatus.status t)
           (default 0%Z (ToolStatus.latencyMs updatedTool)))
    else mret tt
  else mret tt.

(** Lines 76-153: the function mapped over [tools]. *)
Definition randomizeOne (t : ToolStatus.t) : D ToolStatus.t :=
  index ← draw 0 3;
  let status := statusAt index in
  latency ← drawLatency status;
  date ← today;
  let updatedTool :=
    ToolStatus.mk (ToolStatus.id t) (ToolStatus.name t) status date latency
      (if Verdict_eqb status down then Some "No response from service"
       else if Verdict_eqb status degraded then Some "Elevated latency"
       else None) in
  agentCall
    (StatusUpdate (ToolStatus.id updatedTool) (ToolStatus.name updatedTool)
       (ToolStatus.status updatedTool)
       (default 0%Z (ToolStatus.latencyMs updatedTool))
       (hasText (ToolStatus.error updatedTool)));;
  logChange t updatedTool;;
  mret updatedTool.

(** [tools.map(f)]: in order, and abandoned at the first throw. *)
Fixpoint mapTools (l : list ToolStatus.t) : D (list ToolStatus.t) :=
  match l with
  | [] => mret []
  | t :: rest =>
      updatedTool ← randomizeOne t;
      updated ← mapTools rest;
      mret (updatedTool :: updated)
  end.

(** Lines 73-155: [randomizeStatuses], from the array [tools]; the
    array is assigned once the whole [map] has returned. *)
Definition randomizeStatuses (tools : list ToolStatus.t) (r : Run)
  : Completion unit * (list ToolStatus.t * Run) :=
  match mapTools tools r with
  | (Normal updated, r') => (Normal tt, (updated, r'))
  | (Throw e, r') => (Throw e, (tools, r'))
  end.

End Simulation.

(** Lines 34-71: the array [tools] when the module is loaded at [date]. *)
Definition initialTools (date : string) : list ToolStatus.t :=
  [ ToolStatus.mk cursor "Cursor" healthy date (Some 120%Z) None;
    ToolStatus.mk coderabbit "CodeRabbit" degraded date (Some 450%Z)
      (Some "Slow responses from API");
    ToolStatus.mk chatgpt "ChatGPT" healthy date (Some 200%Z) None;
    ToolStatus.mk claude "Claude" healthy date (Some 180%Z) None;
    ToolStatus.mk copilot "GitHub Copilot" unknown date None None ].

(** The events a change from [t] to [updated] is logged with. *)
Definition changeEvents (t updated : ToolStatus.t) : list Event :=
  if Verdict_eqb (ToolStatus.status t) (ToolStatus.status updated) then []
  else
    Console
      (match ToolStatus.status updated with
       | down => LevelError
       | degraded => LevelWarn
       | _ => LevelInfo
       end)
      ("Tool status changed: " +:+ ToolStatus.name updated
       +:+ " is now " +:+ statusName (ToolStatus.status updated))
      (ToolStatus.id updated) (ToolStatus.name updated)
      (ToolStatus.status t) (ToolStatus.status updated) (ToolStatus.latencyMs updated)
    :: match ToolStatus.status updated with
       | down =>
           [NoticeError ("Tool " +:+ ToolStatus.name updated +:+ " is down")
              (ToolStatus.id updated) (ToolStatus.name updated)
              (ToolStatus.status t)
              (default 0%Z (ToolStatus.latencyMs updated))]
       | _ => []
       end.

(** The events of the changes between two states of the array. *)
Fixpoint changesBetween (old updated : list ToolStatus.t) : list Event :=
  match old, updated with
  | t :: old', u :: updated' => changeEvents t u ++ changesBetween old' updated'
  | _, _ => []
  end.

Definition isChangeEvent (ev : Event) : bool :=
  match ev with
  | Console _ _ _ _ _ _ _ | NoticeError _ _ _ _ _ => true
  | StatusUpdate _ _ _ _ _ => false
  end.

(** The fields of a record agree with its verdict, as the simulation
    writes them. *)
Definition coherent (t : ToolStatus.t) : Prop :=
  match ToolStatus.status t with
  | down =>
      ToolStatus.latencyMs t = None
      /\ ToolStatus.error t = Some "No response from service"
  | degraded =>
      (exists latency, ToolStatus.latencyMs t = Some latency)
      /\ ToolStatus.error t = Some "Elevated latency"
  | _ =>
      (exists latency, ToolStatus.latencyMs t = Some latency)
      /\ ToolStatus.error t = None
  end.

(** A steady agent, a fixed clock, and draws that walk through the
    verdicts. *)
Definition cyclingWorld : World :=
  {| floorRandom := fun n a b => (a + Z.of_nat n mod 3)%Z;
     agentThrows := fun _ => None;
     now := fun _ => "2026-01-01T00:00:00.000Z" |}.

End Demo.

(** * Vocabulary of the statements *)

(** ** The calls of one poll *)

(** The calls made by a poll that starts at [retryCount] and retries [k]
    times: the delay before the [n]-th retry of the whole poll is
    [1000 * n]. *)
Definition scheduleFrom (url : string) (retryCount k : nat) : list Event :=
  Fetch url
  :: flat_map (fun n => [Delay (1000 * Z.of_nat n); Fetch url])
       (seq (retryCount + 1) k).

(** The calls of a whole poll with [k] retries. *)
Definition retrySchedule (url : string) (k : nat) : list Event :=
  scheduleFrom url 0 k.

(** ** The classifier *)

(** [data.status?.indicator] and [data.status?.description]. *)
Definition indicatorOf (data : json) : option json :=
  optMember "indicator" (member "status" data).

Definition descriptionOf (data : json) : option json :=
  optMember "description" (member "status" data).

(** The verdict that only depends on the latency. *)
Definition latencyVerdict (latencyMs : Z) : Verdict :=
  if (latencyMs <=? 2000)%Z then healthy else degraded.

(** The indicators the classifier tells apart. *)
Definition knownIndicators : list string :=
  ["none"; "minor"; "major"; "critical"; "partial"].

(** ** The store *)

(** The store is well formed when its records are those of the registry,
    one per target and in the same order. *)
Definition storeOk (l : list ToolStatus.t) : Prop :=
  List.map ToolStatus.id l = List.map ToolConfig.id toolConfigs.

(** [findIndex] on the identifiers alone. *)
Fixpoint indexOfId (i : ToolId) (ids : list ToolId) : option nat :=
  match ids with
  | [] => None
  | j :: rest => if ToolId_eqb j i then Some 0 else option_map S (indexOfId i rest)
  end.

(** The number of records of the store that carry the identifier [i]. *)
Definition countFor (i : ToolId) (l : list ToolStatus.t) : nat :=
  length (List.filter (fun t => ToolId_eqb (ToolStatus.id t) i) l).

(** A write that replaces the record of a target by a record of the same
    target: the only kind of write a well-formed store sees. *)
Definition inPlace (ev : Event) : bool :=
  match ev with
  | StoreSet index record =>
      match toolConfigs !! index with
      | Some config => ToolId_eqb (ToolStatus.id record) (ToolConfig.id config)
      | None => false
      end
  | StorePush _ => false
  | _ => true
  end.

(** The store rebuilt from the writes recorded in a trace. *)
Fixpoint replay (evs : list Event) (l : list ToolStatus.t) : list ToolStatus.t :=
  match evs with
  | [] => l
  | StoreSet index record :: rest => replay rest (<[index := record]> l)
  | StorePush record :: rest => replay rest (l ++ [record])
  | _ :: rest => replay rest l
  end.

(** The writes to the [tools] array. *)
Definition isWrite (ev : Event) : bool :=
  match ev with
  | StoreSet _ _ | StorePush _ => true
  | _ => false
  end.

(** ** The turns of a sweep *)

(** The record built from the outcome of a poll (lines 198-205). *)
Definition updatedToolOf (config : ToolConfig.t) (result : PollOutcome.t)
    (date : string) : ToolStatus.t :=
  ToolStatus.mk (ToolConfig.id config) (ToolConfig.name config)
    (PollOutcome.status result) date
    (PollOutcome.latencyMs result) (PollOutcome.error result).

(** The verdict read before the write (line 196). *)
Definition oldStatusOf (config : ToolConfig.t) (l : list ToolStatus.t) : Verdict :=
  match findTool (ToolConfig.id config) l with
  | Some t => ToolStatus.status t
  | None => unknown
  end.

(** What the telemetry of one target emits when no call throws. *)
Definition reportEvents (updatedTool : ToolStatus.t) (result : PollOutcome.t)
    (oldStatus : Verdict) : list Event :=
  [RecordCustomEvent (ToolStatus.id updatedTool) (ToolStatus.name updatedTool)
     (ToolStatus.status updatedTool)
     (default 0%Z (ToolStatus.latencyMs updatedTool))
     (truthyOpt (ToolStatus.error updatedTool))]
  ++ (if Verdict_eqb (PollOutcome.status result) down
         || truthyOpt (PollOutcome.error result)
      then [ConsoleError (ToolStatus.name updatedTool) (ToolStatus.id updatedTool)
              (PollOutcome.status result) (PollOutcome.error result)
              (ToolStatus.latencyMs updatedTool)]
      else [])
  ++ (if Verdict_eqb (PollOutcome.status result) down
      then [NoticeError (ToolStatus.name updatedTool)
              (orElse (ToolStatus.error updatedTool) (JStr "Unknown error"))
              (ToolStatus.id updatedTool) oldStatus
              (default 0%Z (ToolStatus.latencyMs updatedTool))
              (ToolStatus.error updatedTool)]
      else []).

(** Whether building the incident report of an outcome throws: the
    verdict is down and the diagnostic has no conversion to a string. *)
Definition reportThrows (result : PollOutcome.t) : bool :=
  Verdict_eqb (PollOutcome.status result) down
  && negb (interpolates (orElse (PollOutcome.error result) (JStr "Unknown error"))).

(** The wait that ends the turn of target [i], if any. *)
Definition pacingEvents (i : nat) : list Event :=
  if (i <? length toolConfigs - 1)%nat then [Delay CHECK_DELAY_MS] else [].

(** The state after the first [n] turns of a sweep started in [s]. *)
Fixpoint afterTurns (w : World) (n : nat) (s : State) : State :=
  match n with
  | 0 => s
  | S n' =>
      match toolConfigs !! n' with
      | Some config => snd (iteration w n' config (afterTurns w n' s))
      | None => afterTurns w n' s
      end
  end.

(** The state after [n] sweeps of a process started in world [w]. *)
Fixpoint afterSweeps (w : World) (n : nat) : State :=
  match n with
  | 0 => initialState w
  | S n' => snd (checkAllToolsStatus w (afterSweeps w n'))
  end.

(** The requests and the waits of a trace. *)
Definition isFetchOrDelay (ev : Event) : bool :=
  match ev with
  | Fetch _ | Delay _ => true
  | _ => false
  end.

Definition paceView (evs : list Event) : list Event := List.filter isFetchOrDelay evs.

(** The endpoint of the target of index [i]. *)
Definition urlOf (i : nat) : string :=
  match toolConfigs !! i with
  | Some config => ToolConfig.statusUrl config
  | None => ""
  end.

(** The error-level log lines and the incident reports of a trace. *)
Definition isLogOrIncident (ev : Event) : bool :=
  match ev with
  | ConsoleError _ _ _ _ _ | NoticeError _ _ _ _ _ _ | ConsoleErrorCaught _ _ => true
  | _ => false
  end.

(** ** Worlds and values used as concrete inputs *)

(** Every [fetch] ends the same way and the telemetry agent never throws. *)
Definition steadyWorld (a : Attempt) : World :=
  {| fetch := fun _ => a;
     newrelic := fun _ => None;
     now := fun _ => "2026-01-01T00:00:00.000Z" |}.

(** The body [{"status":{"indicator":i,"description":d}}]. *)
Definition statusPage (i d : string) : json :=
  JObj [("status", JObj [("indicator", JStr i); ("description", JStr d)])].

(** A completed exchange. *)
Definition respond (code : Z) (body : option json) (latencyMs : Z) : Attempt :=
  Completed {| resp_status := code; resp_json := body |} latencyMs.

(** The three targets of the registry. *)
Definition chatgptConfig : ToolConfig.t :=
  ToolConfig.mk chatgpt "ChatGPT" "https://status.openai.com/api/v2/status.json".

Definition claudeConfig : ToolConfig.t :=
  ToolConfig.mk claude "Claude" "https://status.claude.com/api/v2/status.json".

Definition cursorConfig : ToolConfig.t :=
  ToolConfig.mk cursor "Cursor" "https://status.cursor.com/api/v2/status.json".

(** Every status page answers "none" in 500 ms, and the telemetry agent
    throws when it is handed the status event of Claude, the second
    target. *)
Definition throwWorld : World :=
  {| fetch := fun _ => respond 200 (Some (statusPage "none" "All Systems Operational")) 500;
     newrelic := fun h =>
       match last h with
       | Some (RecordCustomEvent claude _ _ _ _) => Some (ErrorObject "agent not connected")
       | _ => None
       end;
     now := fun _ => "2026-01-01T00:00:00.000Z" |}.

(** Every status page answers 503 in 120 ms. *)
Definition outageWorld : World := steadyWorld (respond 503 None 120).

(** A request of [GET /test-error] in production, with an agent that
    does not throw; nothing has set the status of the response when the
    error middleware reads it. *)
Definition quietEnv : Http.Env :=
  {| Http.agentThrows := fun _ => None;
     Http.clock := fun _ => "2026-01-01T00:00:00.000Z";
     Http.nodeEnv := Some "production";
     Http.path := "/test-error";
     Http.method := "GET";
     Http.statusCode := 200 |}.

(** ** Resources of a sweep *)

(** The number of requests of a trace. *)
Definition fetchCount (evs : list Event) : nat :=
  length (List.filter (fun ev => match ev with Fetch _ => true | _ => false end) evs).

(** The time, in milliseconds, a trace spends in [delay]. *)
Fixpoint totalDelay (evs : list Event) : Z :=
  match evs with
  | [] => 0
  | Delay ms :: rest => ms + totalDelay rest
  | _ :: rest => totalDelay rest
  end.

(** The records of the store carry the identifiers and the display names
    of the registry, in registry order. *)
Definition registryOk (l : list ToolStatus.t) : Prop :=
  List.map (fun t => (ToolStatus.id t, ToolStatus.name t)) l
  = List.map (fun c => (ToolConfig.id c, ToolConfig.name c)) toolConfigs.

(** * Properties *)

(** ** Strings and values *)

Lemma orElse_description (d : option json) (fallback : json) :
  orElse (Some (orElse d (JStr ""))) fallback = orElse d fallback.
Proof.
  destruct d as [x|]; simpl; [|reflexivity].
  destruct (truthy x) eqn:Hx; simpl; [rewrite Hx|]; reflexivity.
Qed.

#[local] Arguments orElse : simpl never.

Lemma prefix_append sub s :
  String.prefix sub s = true <-> exists post, s = sub +:+ post.
Proof.
  revert s. induction sub as [|a sub IH]; intros s.
  - split; [intros _; exists s; reflexivity|intros _; destruct s; reflexivity].
  - destruct s as [|b s]; simpl.
    + split; [discriminate|intros [post H]; discriminate H].
    + destruct (Ascii.ascii_dec a b) as [->|Hab].
      * rewrite IH. split; intros [post H]; exists post; [rewrite H|injection H as ->];
          reflexivity.
      * split; [discriminate|]. intros [post H]. injection H as Hb _.
        symmetry in Hb. contradiction.
Qed.

(** [includes] is the substring test. *)
Lemma includes_spec s sub :
  includes s sub = true <-> exists pre post, s = pre +:+ sub +:+ post.
Proof.
  induction s as [|c s IH]; cbn [includes]; rewrite orb_true_iff, prefix_append.
  - split.
    + intros [[post H]|H]; [|discriminate H].
      exists "", post. exact H.
    + intros ([|c pre] & post & H); [left; exists post; exact H|discriminate H].
  - rewrite IH. split.
    + intros [[post H]|(pre & post & H)].
      * exists "", post. exact H.
      * exists (String c pre), post. simpl. rewrite H. reflexivity.
    + intros ([|c' pre] & post & H).
      * left. exists post. exact H.
      * right. injection H as _ H. exists pre, post. exact H.
Qed.

Example includes_refused :
  includes "connect ECONNREFUSED 10.0.0.1:443" "ECONNREFUSED" = true
  /\ includes "fetch failed" "timeout" = false
  /\ numberToString 503 = "503".
Proof. repeat split. Qed.

Example lastMember_duplicate :
  lastMember "a" [("a", JBool true); ("b", JNull); ("a", JStr "x")] = Some (JStr "x").
Proof. reflexivity. Qed.

(** ** One poll: the schedule of attempts *)

Lemma scheduleFrom_S url retryCount k :
  scheduleFrom url retryCount (S k)
  = [Fetch url; Delay (1000 * Z.of_nat (retryCount + 1))]
    ++ scheduleFrom url (retryCount + 1) k.
Proof.
  unfold scheduleFrom. simpl.
  replace (S (retryCount + 1)) with (retryCount + 1 + 1) by lia.
  reflexivity.
Qed.

Section Poll.

Context (w : World) (config : ToolConfig.t).

Let url := ToolConfig.statusUrl config.

Lemma checkToolStatus_step retryCount s :
  checkToolStatus w config retryCount s
  = match fetch w (trace s ++ [Fetch url]) with
    | Completed response latencyMs =>
        (Normal (onResponse response latencyMs), emit (Fetch url) s)
    | Rejected error =>
        if (retryCount <? MAX_RETRIES)%nat then
          checkToolStatus w config (retryCount + 1)
            (emit (Delay (1000 * Z.of_nat (retryCount + 1))) (emit (Fetch url) s))
        else
          (Normal (onExhausted (lastErrorOf (errorMessageOf error))),
           emit (Fetch url) s)
    end.
Proof.
  subst url. rewrite checkToolStatus_unfold_eq.
  unfold checkToolStatus_unfold. simpl.
  destruct (fetch w (trace s ++ [Fetch (ToolConfig.statusUrl config)])) as [r l|e];
    simpl; [reflexivity|].
  destruct (lt_dec retryCount MAX_RETRIES) as [H|H]; simpl.
  - apply Nat.ltb_lt in H. rewrite H. reflexivity.
  - apply Nat.ltb_nlt in H. rewrite H. reflexivity.
Qed.

(** The whole run of a poll: it ends normally after [k] retries, every
    attempt before the last was rejected, and the last attempt decides the
    outcome. *)
Lemma checkToolStatus_run n :
  forall retryCount s,
    MAX_RETRIES - retryCount = n ->
    exists k outcome,
      k <= n
      /\ checkToolStatus w config retryCount s
         = (Normal outcome,
            {| tools := tools s;
               trace := trace s ++ scheduleFrom url retryCount k |})
      /\ (forall j, j < k ->
            exists e, fetch w (trace s ++ scheduleFrom url retryCount j) = Rejected e)
      /\ match fetch w (trace s ++ scheduleFrom url retryCount k) with
         | Completed response latencyMs => outcome = onResponse response latencyMs
         | Rejected e =>
             k = n /\ outcome = onExhausted (lastErrorOf (errorMessageOf e))
         end.
Proof.
  induction n as [|n IH]; intros retryCount s Hn;
    rewrite checkToolStatus_step;
    destruct (fetch w (trace s ++ [Fetch url])) as [r l|e] eqn:Hf.
  - exists 0, (onResponse r l). unfold scheduleFrom; simpl.
    rewrite Hf. repeat split; [lia..].
  - assert ((retryCount <? MAX_RETRIES)%nat = false) as ->
        by (apply Nat.ltb_ge; lia).
    exists 0, (onExhausted (lastErrorOf (errorMessageOf e))).
    unfold scheduleFrom; simpl. rewrite Hf. repeat split; lia.
  - exists 0, (onResponse r l). unfold scheduleFrom; simpl.
    rewrite Hf. repeat split; lia.
  - assert ((retryCount <? MAX_RETRIES)%nat = true) as ->
        by (apply Nat.ltb_lt; lia).
    destruct (IH (retryCount + 1)
                (emit (Delay (1000 * Z.of_nat (retryCount + 1)))
                   (emit (Fetch url) s)))
      as (k & outcome & Hk & Hrun & Hrej & Hlast); [lia|].
    assert (Htr : forall j,
      trace (emit (Delay (1000 * Z.of_nat (retryCount + 1))) (emit (Fetch url) s))
        ++ scheduleFrom url (retryCount + 1) j
      = trace s ++ scheduleFrom url retryCount (S j)).
    { intros j. rewrite scheduleFrom_S. simpl.
      rewrite <- !app_assoc. reflexivity. }
    exists (S k), outcome. split; [lia|]. split; [|split].
    + rewrite Hrun. simpl tools. rewrite Htr. reflexivity.
    + intros [|j] Hj.
      * exists e. exact Hf.
      * rewrite <- Htr. apply Hrej. lia.
    + rewrite <- Htr.
      destruct (fetch w _) as [r' l'|e'] in Hlast |- *; [exact Hlast|].
      destruct Hlast as [-> ->]. split; reflexivity.
Qed.

End Poll.

Lemma toolConfigs_eq : toolConfigs = [chatgptConfig; claudeConfig; cursorConfig].
Proof. reflexivity. Qed.

(** ** The classifier on completed responses *)

Lemma latencyVerdict_gt latencyMs :
  (if (latencyMs >? 2000)%Z then degraded else healthy) = latencyVerdict latencyMs.
Proof.
  unfold latencyVerdict. rewrite Z.gtb_ltb.
  destruct (Z.ltb_spec 2000 latencyMs), (Z.leb_spec latencyMs 2000);
    try reflexivity; lia.
Qed.

(** C1: on a 2xx response whose body parses to a value other than [null],
    the outcome follows the indicator: [none] gives healthy up to 2000 ms
    and degraded above; [minor] and [partial] give degraded with the
    description or a fixed phrase; [major] and [critical] give down with
    the description or "Service status: <indicator>"; any other or missing
    indicator gives healthy up to 2000 ms and degraded above. The measured
    latency is reported in all cases, after a single attempt. *)
Theorem C1_indicator_mapping (w : World) (config : ToolConfig.t)
    (retryCount : nat) (s : State)
    (response : Response) (latencyMs : Z) (data : json) :
  fetch w (trace s ++ [Fetch (ToolConfig.statusUrl config)])
    = Completed response latencyMs ->
  ok response = true ->
  resp_json response = Some data ->
  data <> JNull ->
  exists o,
    checkToolStatus w config retryCount s
      = (Normal o, emit (Fetch (ToolConfig.statusUrl config)) s)
    /\ PollOutcome.latencyMs o = Some latencyMs
    /\ (indicatorOf data = Some (JStr "none") ->
          PollOutcome.status o = latencyVerdict latencyMs
          /\ PollOutcome.error o = None)
    /\ (indicatorOf data = Some (JStr "minor") ->
          PollOutcome.status o = degraded
          /\ PollOutcome.error o
             = Some (orElse (descriptionOf data) (JStr "Minor service outage")))
    /\ (indicatorOf data = Some (JStr "partial") ->
          PollOutcome.status o = degraded
          /\ PollOutcome.error o
             = Some (orElse (descriptionOf data) (JStr "Partial outage detected")))
    /\ (forall i, i = "major" \/ i = "critical" ->
          indicatorOf data = Some (JStr i) ->
          PollOutcome.status o = down
          /\ PollOutcome.error o
             = Some (orElse (descriptionOf data) (JStr ("Service status: " +:+ i))))
    /\ ((forall i, In i knownIndicators -> indicatorOf data <> Some (JStr i)) ->
          PollOutcome.status o = latencyVerdict latencyMs
          /\ PollOutcome.error o = None).
Proof.
  intros Hf Hok Hjson Hnull.
  rewrite checkToolStatus_step, Hf.
  eexists. split; [reflexivity|].
  unfold onResponse. rewrite Hok, Hjson.
  fold (indicatorOf data) (descriptionOf data).
  rewrite latencyVerdict_gt.
  assert (Hmatch : forall (A : Type) (a b : A),
             match data with JNull => a | _ => b end = b)
    by (intros; destruct data; congruence).
  rewrite Hmatch. clear Hmatch.
  split; [|split; [|split; [|split; [|split]]]].
  - destruct (indicatorOf data) as [[| | |i| |]|]; try reflexivity.
    repeat (match goal with |- context [if ?c then _ else _] => destruct c end;
            try reflexivity).
  - intros ->. simpl. split; reflexivity.
  - intros ->. simpl. rewrite orElse_description. split; reflexivity.
  - intros ->. simpl. rewrite orElse_description. split; reflexivity.
  - intros i [-> | ->] ->; simpl; rewrite orElse_description; split; reflexivity.
  - intros Hother.
    destruct (indicatorOf data) as [[| | |i| |]|]; try (split; reflexivity).
    assert (Hne : forall k, In k knownIndicators -> String.eqb i k = false).
    { intros k Hk. apply String.eqb_neq. intros ->. exact (Hother k Hk eq_refl). }
    rewrite !Hne by (simpl; tauto). simpl. split; reflexivity.
Qed.

(** The end-to-end scenario of the specification: HTTP 200, indicator
    [critical], description "Partial outage", 300 ms. *)
Lemma C1_indicator_mapping_witness :
  exists o,
    checkToolStatus
      (steadyWorld (respond 200 (Some (statusPage "critical" "Partial outage")) 300))
      claudeConfig 0 {| tools := []; trace := [] |}
    = (Normal o, {| tools := []; trace := [Fetch (ToolConfig.statusUrl claudeConfig)] |})
    /\ PollOutcome.status o = down
    /\ PollOutcome.latencyMs o = Some 300%Z
    /\ PollOutcome.error o = Some (JStr "Partial outage").
Proof.
  destruct (C1_indicator_mapping
              (steadyWorld (respond 200 (Some (statusPage "critical" "Partial outage")) 300))
              claudeConfig 0 {| tools := []; trace := [] |}
              {| resp_status := 200;
                 resp_json := Some (statusPage "critical" "Partial outage") |}
              300 (statusPage "critical" "Partial outage")
              eq_refl eq_refl eq_refl ltac:(discriminate))
    as (o & Hrun & Hlat & _ & _ & _ & Hmajor & _).
  exists o. split; [exact Hrun|].
  destruct (Hmajor "critical" (or_intror eq_refl) eq_refl) as [Hs He].
  split; [exact Hs|]. split; [exact Hlat|exact He].
Defined.

(** C2: a completed response with status 429 gives degraded with
    "Rate limited - too many requests", never down; a completed response
    with status 500 or above gives down with "Server error: <status>",
    never degraded or healthy. *)
Theorem C2_rate_limited_and_server_error (w : World) (config : ToolConfig.t)
    (retryCount : nat) (s : State) (response : Response) (latencyMs : Z) :
  fetch w (trace s ++ [Fetch (ToolConfig.statusUrl config)])
    = Completed response latencyMs ->
  exists o,
    checkToolStatus w config retryCount s
      = (Normal o, emit (Fetch (ToolConfig.statusUrl config)) s)
    /\ (resp_status response = 429%Z ->
          o = PollOutcome.mk degraded (Some latencyMs)
                (Some (JStr "Rate limited - too many requests"))
          /\ PollOutcome.status o <> down)
    /\ ((500 <= resp_status response)%Z ->
          o = PollOutcome.mk down (Some latencyMs)
                (Some (JStr ("Server error: "
                             +:+ numberToString (resp_status response))))
          /\ PollOutcome.status o <> degraded
          /\ PollOutcome.status o <> healthy).
Proof.
  intros Hf. rewrite checkToolStatus_step, Hf.
  eexists. split; [reflexivity|]. unfold onResponse, ok. split.
  - intros ->. simpl. split; [reflexivity|discriminate].
  - intros H500.
    assert ((resp_status response <=? 299)%Z = false) as ->
        by (apply Z.leb_gt; lia).
    rewrite andb_false_r.
    assert ((resp_status response =? 429)%Z = false) as ->
        by (apply Z.eqb_neq; lia).
    assert ((resp_status response >=? 500)%Z = true) as ->
        by (rewrite Z.geb_leb; apply Z.leb_le; lia).
    simpl. repeat split; discriminate.
Qed.

Lemma C2_rate_limited_and_server_error_witness :
  checkToolStatus (steadyWorld (respond 503 None 120)) claudeConfig 0
    {| tools := []; trace := [] |}
  = (Normal (PollOutcome.mk down (Some 120%Z) (Some (JStr "Server error: 503"))),
     {| tools := []; trace := [Fetch (ToolConfig.statusUrl claudeConfig)] |}).
Proof.
  destruct (C2_rate_limited_and_server_error
              (steadyWorld (respond 503 None 120)) claudeConfig 0
              {| tools := []; trace := [] |}
              {| resp_status := 503; resp_json := None |} 120 eq_refl)
    as (o & Hrun & _ & Hserver).
  destruct (Hserver ltac:(simpl; lia)) as [-> _]. exact Hrun.
Defined.

(** C3: on a 2xx response whose body cannot be read as the status page
    ([response.json()] rejects, or the body is [null]), the outcome is
    unknown with "Failed to parse status API response" and the measured
    latency, and the poll ends after this single attempt. *)
Theorem C3_parse_failure (w : World) (config : ToolConfig.t)
    (retryCount : nat) (s : State) (response : Response) (latencyMs : Z) :
  fetch w (trace s ++ [Fetch (ToolConfig.statusUrl config)])
    = Completed response latencyMs ->
  ok response = true ->
  resp_json response = None \/ resp_json response = Some JNull ->
  checkToolStatus w config retryCount s
  = (Normal (PollOutcome.mk unknown (Some latencyMs)
               (Some (JStr "Failed to parse status API response"))),
     {| tools := tools s;
        trace := trace s ++ [Fetch (ToolConfig.statusUrl config)] |}).
Proof.
  intros Hf Hok Hjson. rewrite checkToolStatus_step, Hf.
  unfold onResponse. rewrite Hok.
  destruct Hjson as [-> | ->]; reflexivity.
Qed.

Lemma C3_parse_failure_witness :
  checkToolStatus (steadyWorld (respond 200 None 80)) claudeConfig 0
    {| tools := []; trace := [] |}
  = (Normal (PollOutcome.mk unknown (Some 80%Z)
               (Some (JStr "Failed to parse status API response"))),
     {| tools := []; trace := [Fetch (ToolConfig.statusUrl claudeConfig)] |}).
Proof.
  exact (C3_parse_failure (steadyWorld (respond 200 None 80)) claudeConfig 0
           {| tools := []; trace := [] |}
           {| resp_status := 200; resp_json := None |} 80
           eq_refl eq_refl (or_introl eq_refl)).
Defined.

(** ** The retry controller *)

(** C4: a poll whose attempt ends with a completed response, whatever its
    status and body, returns after that attempt without a delay or a
    second request; and each of the [k] retries of a poll follows an
    attempt that was rejected. *)
Theorem C4_retry_only_after_rejection (w : World) (config : ToolConfig.t)
    (s : State) :
  (forall retryCount response latencyMs,
      fetch w (trace s ++ [Fetch (ToolConfig.statusUrl config)])
        = Completed response latencyMs ->
      checkToolStatus w config retryCount s
      = (Normal (onResponse response latencyMs),
         {| tools := tools s;
            trace := trace s ++ [Fetch (ToolConfig.statusUrl config)] |}))
  /\ exists k outcome,
       checkToolStatus w config 0 s
       = (Normal outcome,
          {| tools := tools s;
             trace := trace s ++ retrySchedule (ToolConfig.statusUrl config) k |})
       /\ (forall j, j < k ->
             exists e,
               fetch w (trace s ++ retrySchedule (ToolConfig.statusUrl config) j)
               = Rejected e)
       /\ (forall j response latencyMs, j <= k ->
             fetch w (trace s ++ retrySchedule (ToolConfig.statusUrl config) j)
               = Completed response latencyMs ->
             j = k /\ outcome = onResponse response latencyMs).
Proof.
  split.
  - intros retryCount response latencyMs Hf.
    rewrite checkToolStatus_step, Hf. reflexivity.
  - destruct (checkToolStatus_run w config (MAX_RETRIES - 0) 0 s eq_refl)
      as (k & outcome & _ & Hrun & Hrej & Hlast).
    exists k, outcome. split; [exact Hrun|]. split; [exact Hrej|].
    intros j response latencyMs Hj Hf.
    destruct (Nat.eq_dec j k) as [->|Hne].
    + split; [reflexivity|]. unfold retrySchedule in Hf.
      rewrite Hf in Hlast. exact Hlast.
    + destruct (Hrej j ltac:(lia)) as [e He].
      unfold retrySchedule in Hf. congruence.
Qed.

(** C5: a poll always ends with an outcome, after [k <= 2] retries, that
    is at most 3 requests; the calls it makes are one request, or a
    request, 1000 ms, a request, or a request, 1000 ms, a request, 2000 ms,
    a request: the delay before retry [n] is [n * 1000] ms, and nothing
    follows the last request. *)
Theorem C5_bounded_backoff (w : World) (config : ToolConfig.t) (s : State) :
  exists k outcome,
    k <= MAX_RETRIES
    /\ checkToolStatus w config 0 s
       = (Normal outcome,
          {| tools := tools s;
             trace := trace s ++ retrySchedule (ToolConfig.statusUrl config) k |})
    /\ retrySchedule (ToolConfig.statusUrl config) k
       = Fetch (ToolConfig.statusUrl config)
         :: flat_map
              (fun n => [Delay (Z.of_nat n * 1000); Fetch (ToolConfig.statusUrl config)])
              (seq 1 k)
    /\ (let url := ToolConfig.statusUrl config in
        retrySchedule url k = [Fetch url]
        \/ retrySchedule url k = [Fetch url; Delay 1000; Fetch url]
        \/ retrySchedule url k
           = [Fetch url; Delay 1000; Fetch url; Delay 2000; Fetch url]).
Proof.
  destruct (checkToolStatus_run w config (MAX_RETRIES - 0) 0 s eq_refl)
    as (k & outcome & Hk & Hrun & _ & _).
  exists k, outcome. split; [exact Hk|]. split; [exact Hrun|]. split.
  - unfold retrySchedule, scheduleFrom. f_equal.
    apply flat_map_ext. intros n. rewrite Z.mul_comm. reflexivity.
  - simpl in Hk. unfold MAX_RETRIES in Hk.
    destruct k as [|[|[|k]]]; [left|right; left|right; right|lia]; reflexivity.
Qed.

(** The verdict of an exhausted poll, read on the message of the last
    failure rather than on its classified text: the two fixed texts
    contain neither "Rate limited" nor "429", so a message that names a
    timeout or a connection failure is never a rate limit. *)
Lemma exhausted_degraded_iff (message : string) :
  PollOutcome.status (onExhausted (lastErrorOf message)) = degraded
  <-> includes message "aborted" = false
      /\ includes message "timeout" = false
      /\ includes message "ECONNREFUSED" = false
      /\ includes message "ENOTFOUND" = false
      /\ (includes message "Rate limited" = true \/ includes message "429" = true).
Proof.
  assert (Ht : includes "Request timeout" "Rate limited"
               || includes "Request timeout" "429" = false) by reflexivity.
  assert (Hc : includes "Connection failed" "Rate limited"
               || includes "Connection failed" "429" = false) by reflexivity.
  unfold lastErrorOf, onExhausted.
  destruct (includes message "aborted") eqn:Ea;
    [cbn [orb]; rewrite Ht; cbn; split; [discriminate|intros [H _]; discriminate H]|].
  destruct (includes message "timeout") eqn:Eto;
    [cbn [orb]; rewrite Ht; cbn;
     split; [discriminate|intros (_ & H & _); discriminate H]|].
  cbn [orb].
  destruct (includes message "ECONNREFUSED") eqn:Ec;
    [cbn [orb]; rewrite Hc; cbn;
     split; [discriminate|intros (_ & _ & H & _); discriminate H]|].
  destruct (includes message "ENOTFOUND") eqn:En;
    [cbn [orb]; rewrite Hc; cbn;
     split; [discriminate|intros (_ & _ & _ & H & _); discriminate H]|].
  cbn [orb].
  destruct (includes message "Rate limited") eqn:Er; cbn [orb].
  - cbn. split; [intros _; repeat split; left; reflexivity|reflexivity].
  - destruct (includes message "429") eqn:E4; cbn.
    + split; [intros _; repeat split; right; reflexivity|reflexivity].
    + split; [discriminate|intros (_ & _ & _ & _ & [H|H]); discriminate H].
Qed.

(** C6, as amended: when the three attempts of a poll are rejected, the
    outcome has no latency and carries the classified text of the last
    failure: "Request timeout" for a message with [aborted] or [timeout],
    "Connection failed" for one with [ECONNREFUSED] or [ENOTFOUND], the
    message itself otherwise. The verdict is degraded when that
    classified text contains "Rate limited" or "429", and down otherwise.
    On the message of the failure this reads: degraded exactly when the
    message contains "Rate limited" or "429" and none of [aborted],
    [timeout], [ECONNREFUSED] and [ENOTFOUND]. *)
Theorem C6_retries_exhausted (w : World) (config : ToolConfig.t) (s : State)
    (e0 e1 e2 : Thrown) :
  let url := ToolConfig.statusUrl config in
  let message := errorMessageOf e2 in
  let lastError := lastErrorOf message in
  fetch w (trace s ++ retrySchedule url 0) = Rejected e0 ->
  fetch w (trace s ++ retrySchedule url 1) = Rejected e1 ->
  fetch w (trace s ++ retrySchedule url 2) = Rejected e2 ->
  exists o,
    checkToolStatus w config 0 s
      = (Normal o, {| tools := tools s; trace := trace s ++ retrySchedule url 2 |})
    /\ PollOutcome.latencyMs o = None
    /\ PollOutcome.error o = Some (JStr lastError)
    /\ PollOutcome.status o
       = (if includes lastError "Rate limited" || includes lastError "429"
          then degraded else down)
    /\ (includes message "aborted" = true \/ includes message "timeout" = true ->
          lastError = "Request timeout" /\ PollOutcome.status o = down)
    /\ (includes message "aborted" = false -> includes message "timeout" = false ->
          includes message "ECONNREFUSED" = true
          \/ includes message "ENOTFOUND" = true ->
          lastError = "Connection failed" /\ PollOutcome.status o = down)
    /\ (includes message "aborted" = false -> includes message "timeout" = false ->
          includes message "ECONNREFUSED" = false ->
          includes message "ENOTFOUND" = false ->
          lastError = message)
    /\ (PollOutcome.status o = degraded
        <-> includes message "aborted" = false
            /\ includes message "timeout" = false
            /\ includes message "ECONNREFUSED" = false
            /\ includes message "ENOTFOUND" = false
            /\ (includes message "Rate limited" = true
                \/ includes message "429" = true)).
Proof.
  intros url message lastError H0 H1 H2.
  destruct (checkToolStatus_run w config (MAX_RETRIES - 0) 0 s eq_refl)
    as (k & o & Hk & Hrun & _ & Hlast).
  fold url in Hrun, Hlast. unfold retrySchedule in H0, H1, H2.
  assert (k = 2) as ->.
  { simpl in Hk. unfold MAX_RETRIES in Hk.
    destruct k as [|[|[|k]]]; [| |reflexivity|lia].
    - rewrite H0 in Hlast. destruct Hlast as [Hk' _]. discriminate Hk'.
    - rewrite H1 in Hlast. destruct Hlast as [Hk' _]. discriminate Hk'. }
  rewrite H2 in Hlast. destruct Hlast as [_ ->].
  fold message lastError.
  exists (onExhausted lastError). split; [exact Hrun|].
  assert (Hstatus : PollOutcome.status (onExhausted lastError)
                    = if includes lastError "Rate limited" || includes lastError "429"
                      then degraded else down).
  { unfold onExhausted. destruct (_ || _); reflexivity. }
  split; [unfold onExhausted; destruct (_ || _); reflexivity|].
  split; [unfold onExhausted; destruct (_ || _); reflexivity|].
  split; [exact Hstatus|].
  split; [|split; [|split]].
  - intros Hto.
    assert (lastError = "Request timeout") as Heq.
    { subst lastError. unfold lastErrorOf.
      destruct Hto as [-> | ->]; rewrite ?orb_true_r; reflexivity. }
    split; [exact Heq|]. rewrite Hstatus, Heq. reflexivity.
  - intros Ha Ht Hconn.
    assert (lastError = "Connection failed") as Heq.
    { subst lastError. unfold lastErrorOf. rewrite Ha, Ht. simpl.
      destruct Hconn as [-> | ->]; rewrite ?orb_true_r; reflexivity. }
    split; [exact Heq|]. rewrite Hstatus, Heq. reflexivity.
  - intros Ha Ht Hc Hn. subst lastError. unfold lastErrorOf.
    rewrite Ha, Ht, Hc, Hn. reflexivity.
  - exact (exhausted_degraded_iff message).
Qed.

(** C6 as stated fails on a failure whose message names both a timeout
    and a rate limit: the message contains "429", and after three
    rejected attempts the verdict is down with "Request timeout", not
    degraded. *)
Lemma C6_counterexample :
  let e := ErrorObject "timeout after HTTP 429" in
  includes (errorMessageOf e) "429" = true
  /\ checkToolStatus (steadyWorld (Rejected e)) claudeConfig 0
       {| tools := []; trace := [] |}
     = (Normal (PollOutcome.mk down None (Some (JStr "Request timeout"))),
        {| tools := [];
           trace := retrySchedule (ToolConfig.statusUrl claudeConfig) 2 |}).
Proof. vm_compute. split; reflexivity. Qed.

(** The end-to-end scenario of the specification: connection refused on
    all three attempts. *)
Lemma C6_retries_exhausted_witness :
  checkToolStatus
    (steadyWorld (Rejected (ErrorObject "connect ECONNREFUSED 10.0.0.1:443")))
    claudeConfig 0 {| tools := []; trace := [] |}
  = (Normal (PollOutcome.mk down None (Some (JStr "Connection failed"))),
     {| tools := [];
        trace := retrySchedule (ToolConfig.statusUrl claudeConfig) 2 |}).
Proof.
  destruct (C6_retries_exhausted
              (steadyWorld (Rejected (ErrorObject "connect ECONNREFUSED 10.0.0.1:443")))
              claudeConfig {| tools := []; trace := [] |}
              (ErrorObject "connect ECONNREFUSED 10.0.0.1:443")
              (ErrorObject "connect ECONNREFUSED 10.0.0.1:443")
              (ErrorObject "connect ECONNREFUSED 10.0.0.1:443")
              eq_refl eq_refl eq_refl)
    as (o & Hrun & Hlat & Herr & _ & _ & Hconn & _).
  destruct (Hconn eq_refl eq_refl (or_introl eq_refl)) as [Hlast Hstatus].
  rewrite Hrun. f_equal. f_equal.
  destruct o as [st lat err]. simpl in Hlat, Herr, Hstatus.
  rewrite Hlat, Hstatus, Herr. reflexivity.
Defined.

(** ** The status store *)

Lemma findIndex_ids i l : findIndex i l = indexOfId i (List.map ToolStatus.id l).
Proof.
  induction l as [|t l IH]; simpl; [reflexivity|].
  rewrite IH. reflexivity.
Qed.

Lemma findIndex_Some i l n :
  findIndex i l = Some n -> exists t, l !! n = Some t /\ ToolStatus.id t = i.
Proof.
  revert n. induction l as [|t l IH]; simpl; intros n H; [discriminate|].
  destruct (ToolId_eqb (ToolStatus.id t) i) eqn:E.
  - injection H as <-. exists t. split; [reflexivity|].
    destruct (ToolStatus.id t), i; (reflexivity || discriminate).
  - destruct (findIndex i l) as [m|]; [|discriminate].
    injection H as <-. exact (IH m eq_refl).
Qed.

Lemma ids_insert (l : list ToolStatus.t) n t u :
  l !! n = Some t -> ToolStatus.id u = ToolStatus.id t ->
  List.map ToolStatus.id (<[n := u]> l) = List.map ToolStatus.id l.
Proof.
  intros Hl Hid.
  change (ToolStatus.id <$> <[n := u]> l = ToolStatus.id <$> l).
  rewrite list_fmap_insert, Hid.
  apply list_insert_id. rewrite list_lookup_fmap, Hl. reflexivity.
Qed.

Lemma storeOk_index i config l :
  storeOk l -> toolConfigs !! i = Some config ->
  findIndex (ToolConfig.id config) l = Some i.
Proof.
  intros Hok Hi. rewrite findIndex_ids, Hok.
  destruct i as [|[|[|i]]]; simpl in Hi; try discriminate;
    injection Hi as <-; reflexivity.
Qed.

Lemma storeOk_length l : storeOk l -> length l = length toolConfigs.
Proof.
  intros H. rewrite <- (length_map ToolStatus.id l), H. apply length_map.
Qed.

(** ** One turn of the sweep *)

Lemma bind_normal {A B} (m : M A) (k : A -> M B) s a s' :
  m s = (Normal a, s') -> (m ≫= k) s = k a s'.
Proof. intros H. unfold mbind, M_bind. rewrite H. reflexivity. Qed.

Lemma bind_throw {A B} (m : M A) (k : A -> M B) s e s' :
  m s = (Throw e, s') -> (m ≫= k) s = (Throw e, s').
Proof. intros H. unfold mbind, M_bind. rewrite H. reflexivity. Qed.

Section Turn.

Context (w : World).

(** The telemetry leaves the store alone and emits a prefix of its
    events, all of them when no call throws. *)
Lemma telemetry_run updatedTool result oldStatus s :
  exists r evs,
    telemetry w updatedTool result oldStatus s
      = (r, {| tools := tools s; trace := trace s ++ evs |})
    /\ evs `prefix_of` reportEvents updatedTool result oldStatus
    /\ (r = Normal tt -> evs = reportEvents updatedTool result oldStatus).
Proof.
  unfold telemetry, reportEvents, callNewrelic, throw, log, emit,
    mbind, M_bind, mret, M_ret.
  destruct (Verdict_eqb (PollOutcome.status result) down) eqn:Hdown; simpl;
    repeat match goal with
      | |- context [interpolates ?x] => destruct (interpolates x) eqn:?; simpl
      | |- context [newrelic w ?h] => destruct (newrelic w h) eqn:?; simpl
      | |- context [truthyOpt ?x] =>
          lazymatch x with
          | PollOutcome.error _ => destruct (truthyOpt x) eqn:?; simpl
          end
      end;
    rewrite <- ?app_assoc; simpl;
    eexists _, _; (split; [reflexivity|]); (split; [|try discriminate; try reflexivity]);
    try (eexists; simpl; reflexivity).
Qed.

End Turn.

Section Iteration.

Context (w : World).

(** One turn of the loop on a store that holds the target at [idx]: the
    poll, the write of its outcome, then either the whole telemetry and
    the pacing delay, or a telemetry cut short by a throw, the log of the
    [catch] and the write of the unknown verdict. The turn itself never
    throws. *)
Lemma iteration_run i config s idx :
  findIndex (ToolConfig.id config) (tools s) = Some idx ->
  exists k outcome evs,
    let url := ToolConfig.statusUrl config in
    let polled := trace s ++ retrySchedule url k in
    let updated := updatedToolOf config outcome (now w polled) in
    let oldStatus := oldStatusOf config (tools s) in
    k <= MAX_RETRIES
    /\ checkToolStatus w config 0 s
       = (Normal outcome, {| tools := tools s; trace := polled |})
    /\ evs `prefix_of` reportEvents updated outcome oldStatus
    /\ ((evs = reportEvents updated outcome oldStatus
         /\ fst (tryBlock w i config (findTool (ToolConfig.id config) (tools s)) s)
            = Normal tt
         /\ iteration w i config s
            = (Normal tt,
               {| tools := <[idx := updated]> (tools s);
                  trace := polled ++ [StoreSet idx updated] ++ evs
                           ++ pacingEvents i |}))
        \/ (exists e date,
              fst (tryBlock w i config (findTool (ToolConfig.id config) (tools s)) s)
              = Throw e
              /\ iteration w i config s
                 = (Normal tt,
                    {| tools := <[idx := markUnknown updated date e]> (tools s);
                       trace := polled ++ [StoreSet idx updated] ++ evs
                                ++ [ConsoleErrorCaught (ToolConfig.name config) e;
                                    StoreSet idx (markUnknown updated date e)] |}))).
Proof.
  intros Hfind.
  destruct (checkToolStatus_run w config (MAX_RETRIES - 0) 0 s eq_refl)
    as (k & outcome & Hk & Hrun & _ & _).
  fold (retrySchedule (ToolConfig.statusUrl config) k) in Hrun.
  set (polled := trace s ++ retrySchedule (ToolConfig.statusUrl config) k) in *.
  set (updated := updatedToolOf config outcome (now w polled)).
  set (oldStatus := oldStatusOf config (tools s)).
  set (s2 := {| tools := <[idx := updated]> (tools s);
                trace := polled ++ [StoreSet idx updated] |}).
  destruct (telemetry_run w updated outcome oldStatus s2)
    as (r & evs & Htel & Hpre & Hall).
  exists k, outcome, evs. cbv zeta.
  split; [exact Hk|]. split; [exact Hrun|]. split; [exact Hpre|].
  assert (Htry :
    tryBlock w i config (findTool (ToolConfig.id config) (tools s)) s
    = (telemetry w updated outcome oldStatus;; pacing i) s2).
  { unfold tryBlock. rewrite (bind_normal _ _ _ _ _ Hrun).
    unfold newDateISO at 1.
    rewrite (bind_normal _ _ _ (now w polled) {| tools := tools s; trace := polled |})
      by reflexivity.
    rewrite (bind_normal _ _ _ tt s2); [reflexivity|].
    unfold storeUpdated. simpl. rewrite Hfind. reflexivity. }
  unfold iteration. rewrite (bind_normal _ _ s (tools s) s) by reflexivity.
  unfold tryCatch. rewrite Htry.
  destruct r as [[]|e].
  - left. split; [apply Hall; reflexivity|].
    rewrite (bind_normal _ _ _ _ _ Htel).
    unfold pacing, pacingEvents, delay, log, emit, mret, M_ret.
    destruct (i <? length toolConfigs - 1)%nat; simpl;
      unfold polled; rewrite <- ?app_assoc, ?app_nil_r; split; reflexivity.
  - right. rewrite (bind_throw _ _ _ _ _ Htel). simpl fst.
    destruct (findIndex_Some _ _ _ Hfind) as (t & Ht & Hid).
    eexists e, _. split; [reflexivity|].
    unfold catchBlock.
    rewrite (bind_normal _ _ _ tt
               (emit (ConsoleErrorCaught (ToolConfig.name config) e)
                  {| tools := tools s2; trace := trace s2 ++ evs |}))
      by reflexivity.
    unfold storeUnknown. simpl.
    rewrite findIndex_ids, (ids_insert _ _ t) by (assumption || (symmetry; exact Hid)).
    rewrite <- findIndex_ids, Hfind.
    rewrite list_lookup_insert_eq by (eapply lookup_lt_Some; exact Ht).
    rewrite list_insert_insert_eq. unfold polled.
    rewrite <- !app_assoc. reflexivity.
Qed.

End Iteration.

(** ** The sweep *)

Lemma inPlace_retrySchedule url k : forallb inPlace (retrySchedule url k) = true.
Proof.
  unfold retrySchedule, scheduleFrom. cbn [forallb inPlace andb].
  generalize (0 + 1). induction k as [|k IH]; intros n; simpl; [reflexivity|].
  apply IH.
Qed.

Lemma inPlace_reportEvents updated outcome oldStatus :
  forallb inPlace (reportEvents updated outcome oldStatus) = true.
Proof.
  unfold reportEvents.
  destruct (Verdict_eqb (PollOutcome.status outcome) down),
    (truthyOpt (PollOutcome.error outcome)); reflexivity.
Qed.

Lemma inPlace_prefix (evs l : list Event) :
  evs `prefix_of` l -> forallb inPlace l = true -> forallb inPlace evs = true.
Proof.
  intros [rest ->] H. rewrite forallb_app in H.
  apply andb_true_iff in H. tauto.
Qed.

Lemma inPlace_pacingEvents i : forallb inPlace (pacingEvents i) = true.
Proof. unfold pacingEvents. destruct (i <? _)%nat; reflexivity. Qed.

Lemma ToolId_eqb_refl i : ToolId_eqb i i = true.
Proof. destruct i; reflexivity. Qed.

Section Sweep.

Context (w : World).

(** The effect of the turn of target [i] on a well-formed store. *)
Lemma turn_run i config s :
  storeOk (tools s) -> toolConfigs !! i = Some config ->
  exists k outcome record new,
    let polled := trace s ++ retrySchedule (ToolConfig.statusUrl config) k in
    let updated := updatedToolOf config outcome (now w polled) in
    k <= MAX_RETRIES
    /\ checkToolStatus w config 0 s
       = (Normal outcome, {| tools := tools s; trace := polled |})
    /\ iteration w i config s
       = (Normal tt, {| tools := <[i := record]> (tools s); trace := trace s ++ new |})
    /\ match fst (tryBlock w i config (findTool (ToolConfig.id config) (tools s)) s) with
       | Normal _ => record = updated
       | Throw e => exists date, record = markUnknown updated date e
       end
    /\ In (Fetch (ToolConfig.statusUrl config)) new
    /\ In (StoreSet i record) new
    /\ forallb inPlace new = true.
Proof.
  intros Hok Hi.
  destruct (iteration_run w i config s i (storeOk_index _ _ _ Hok Hi))
    as (k & outcome & evs & Hk & Hrun & Hpre & Hcases).
  cbv zeta in Hcases.
  set (polled := trace s ++ retrySchedule (ToolConfig.statusUrl config) k) in *.
  set (updated := updatedToolOf config outcome (now w polled)) in *.
  assert (Hevs : forallb inPlace evs = true)
    by (eapply inPlace_prefix; [exact Hpre|apply inPlace_reportEvents]).
  assert (Hset : forall r, ToolStatus.id r = ToolConfig.id config ->
                           inPlace (StoreSet i r) = true).
  { intros r Hr. simpl. rewrite Hi, Hr. apply ToolId_eqb_refl. }
  assert (Hfetch : In (Fetch (ToolConfig.statusUrl config))
                     (retrySchedule (ToolConfig.statusUrl config) k))
    by (left; reflexivity).
  destruct Hcases as [(Hall & Htry & Hit) | (e & date & Htry & Hit)].
  - exists k, outcome, updated,
      (retrySchedule (ToolConfig.statusUrl config) k
       ++ [StoreSet i updated] ++ evs ++ pacingEvents i).
    cbv zeta. split; [exact Hk|]. split; [exact Hrun|].
    split; [rewrite Hit; unfold polled; rewrite <- app_assoc; reflexivity|].
    split; [rewrite Htry; reflexivity|].
    split; [apply in_or_app; left; exact Hfetch|].
    split; [apply in_or_app; right; left; reflexivity|].
    rewrite !forallb_app, inPlace_retrySchedule, Hevs, inPlace_pacingEvents.
    cbn [forallb]. rewrite Hset by reflexivity. reflexivity.
  - exists k, outcome, (markUnknown updated date e),
      (retrySchedule (ToolConfig.statusUrl config) k
       ++ [StoreSet i updated] ++ evs
       ++ [ConsoleErrorCaught (ToolConfig.name config) e;
           StoreSet i (markUnknown updated date e)]).
    cbv zeta. split; [exact Hk|]. split; [exact Hrun|].
    split; [rewrite Hit; unfold polled; rewrite <- app_assoc; reflexivity|].
    split; [rewrite Htry; exists date; reflexivity|].
    split; [apply in_or_app; left; exact Hfetch|].
    split.
    { apply in_or_app; right. apply in_or_app; right.
      apply in_or_app; right. right; left; reflexivity. }
    rewrite !forallb_app, inPlace_retrySchedule, Hevs.
    cbn [forallb]. rewrite !Hset by reflexivity. reflexivity.
Qed.

Lemma turn_storeOk i config s :
  storeOk (tools s) -> toolConfigs !! i = Some config ->
  fst (iteration w i config s) = Normal tt
  /\ storeOk (tools (snd (iteration w i config s))).
Proof.
  intros Hok Hi.
  destruct (turn_run i config s Hok Hi)
    as (k & outcome & record & new & _ & _ & Hit & Hrec & _ & _ & _).
  rewrite Hit. split; [reflexivity|]. simpl.
  destruct (findIndex_Some _ _ _ (storeOk_index _ _ _ Hok Hi)) as (t & Ht & Hid).
  unfold storeOk. rewrite (ids_insert _ _ t); [exact Hok|exact Ht|].
  rewrite Hid.
  destruct (fst (tryBlock w i config _ s)); [subst record; reflexivity|].
  destruct Hrec as [date ->]. reflexivity.
Qed.

Lemma afterTurns_storeOk n s : storeOk (tools s) -> storeOk (tools (afterTurns w n s)).
Proof.
  intros Hok. induction n as [|n IH]; simpl; [exact Hok|].
  destruct (toolConfigs !! n) as [config|] eqn:Hn; [|exact IH].
  apply turn_storeOk; assumption.
Qed.

(** On a well-formed store the sweep is the sequence of its turns and
    ends normally. *)
Lemma checkAllToolsStatus_run s :
  storeOk (tools s) ->
  checkAllToolsStatus w s = (Normal tt, afterTurns w (length toolConfigs) s).
Proof.
  intros Hok. unfold checkAllToolsStatus, toolConfigs at 1. simpl forLoop.
  assert (Hturn : forall n config (k : unit -> M unit),
    toolConfigs !! n = Some config ->
    (iteration w n config ≫= k) (afterTurns w n s) = k tt (afterTurns w (S n) s)).
  { intros n config k Hn.
    destruct (turn_storeOk n config (afterTurns w n s)
                (afterTurns_storeOk n s Hok) Hn) as [Hnormal _].
    simpl afterTurns. rewrite Hn. apply bind_normal.
    rewrite <- Hnormal. apply surjective_pairing. }
  change s with (afterTurns w 0 s) at 1.
  rewrite (Hturn 0) by reflexivity.
  rewrite (Hturn 1) by reflexivity.
  rewrite (Hturn 2) by reflexivity.
  reflexivity.
Qed.

End Sweep.

Lemma replay_app evs1 evs2 l : replay (evs1 ++ evs2) l = replay evs2 (replay evs1 l).
Proof.
  revert l. induction evs1 as [|ev evs1 IH]; intros l; [reflexivity|].
  destruct ev; simpl; apply IH.
Qed.

Lemma replay_no_write evs l : existsb isWrite evs = false -> replay evs l = l.
Proof.
  induction evs as [|ev evs IH]; [reflexivity|].
  destruct ev; simpl; try exact IH; discriminate.
Qed.

Lemma no_write_retrySchedule url k : existsb isWrite (retrySchedule url k) = false.
Proof.
  unfold retrySchedule, scheduleFrom. cbn [existsb isWrite orb].
  generalize (0 + 1). induction k as [|k IH]; intros n; simpl; [reflexivity|].
  apply IH.
Qed.

Lemma no_write_reportEvents updated outcome oldStatus :
  existsb isWrite (reportEvents updated outcome oldStatus) = false.
Proof.
  unfold reportEvents.
  destruct (Verdict_eqb (PollOutcome.status outcome) down),
    (truthyOpt (PollOutcome.error outcome)); reflexivity.
Qed.

Lemma no_write_prefix (evs l : list Event) :
  evs `prefix_of` l -> existsb isWrite l = false -> existsb isWrite evs = false.
Proof.
  intros [rest ->] H. rewrite existsb_app in H.
  apply orb_false_iff in H. tauto.
Qed.

Lemma no_write_pacingEvents i : existsb isWrite (pacingEvents i) = false.
Proof. unfold pacingEvents. destruct (i <? _)%nat; reflexivity. Qed.

(** An in-place write keeps the store well formed. *)
Lemma storeOk_inPlace l ev :
  storeOk l -> inPlace ev = true -> storeOk (replay [ev] l).
Proof.
  intros Hok Hev. destruct ev as [| |index record| | | | |]; simpl; try exact Hok;
    [|discriminate].
  simpl in Hev. destruct (toolConfigs !! index) as [config|] eqn:Hi; [|discriminate].
  destruct (findIndex_Some _ _ _ (storeOk_index _ _ _ Hok Hi)) as (t & Ht & Hid).
  unfold storeOk. rewrite (ids_insert _ _ t); [exact Hok|exact Ht|].
  rewrite Hid. destruct (ToolStatus.id record), (ToolConfig.id config);
    (reflexivity || discriminate).
Qed.

Lemma storeOk_replay evs l :
  storeOk l -> forallb inPlace evs = true -> storeOk (replay evs l).
Proof.
  revert l. induction evs as [|ev evs IH]; intros l Hok Hevs; [exact Hok|].
  simpl in Hevs. apply andb_true_iff in Hevs as [Hev Hevs].
  change (ev :: evs) with ([ev] ++ evs). rewrite replay_app.
  apply IH; [|exact Hevs]. apply storeOk_inPlace; assumption.
Qed.

Section SweepTrace.

Context (w : World).

(** The writes recorded by a turn are the writes made by the turn. *)
Lemma iteration_replay i config s :
  storeOk (tools s) -> toolConfigs !! i = Some config ->
  exists new,
    trace (snd (iteration w i config s)) = trace s ++ new
    /\ tools (snd (iteration w i config s)) = replay new (tools s)
    /\ forallb inPlace new = true.
Proof.
  intros Hok Hi.
  destruct (iteration_run w i config s i (storeOk_index _ _ _ Hok Hi))
    as (k & outcome & evs & _ & _ & Hpre & Hcases).
  cbv zeta in Hcases.
  destruct (turn_run w i config s Hok Hi)
    as (k' & outcome' & record & new' & _ & _ & Hit' & _ & _ & _ & Hin).
  assert (Hevs : existsb isWrite evs = false)
    by (eapply no_write_prefix; [exact Hpre|apply no_write_reportEvents]).
  destruct Hcases as [(_ & _ & Hit) | (e & date & _ & Hit)].
  - eexists. rewrite Hit. simpl. rewrite <- app_assoc.
    split; [reflexivity|]. split.
    + rewrite !replay_app, (replay_no_write (retrySchedule _ _))
        by apply no_write_retrySchedule.
      cbn [replay app]. rewrite replay_app.
      rewrite (replay_no_write evs) by exact Hevs.
      rewrite replay_no_write by apply no_write_pacingEvents. reflexivity.
    + rewrite Hit' in Hit. injection Hit as _ Htr.
      rewrite <- app_assoc in Htr. apply app_inv_head in Htr.
      cbn [app] in Htr |- *. rewrite <- Htr. exact Hin.
  - eexists. rewrite Hit. simpl. rewrite <- app_assoc.
    split; [reflexivity|]. split.
    + rewrite !replay_app, (replay_no_write (retrySchedule _ _))
        by apply no_write_retrySchedule.
      cbn [replay app]. rewrite replay_app.
      rewrite (replay_no_write evs) by exact Hevs.
      simpl. rewrite list_insert_insert_eq. reflexivity.
    + rewrite Hit' in Hit. injection Hit as _ Htr.
      rewrite <- app_assoc in Htr. apply app_inv_head in Htr.
      cbn [app] in Htr |- *. rewrite <- Htr. exact Hin.
Qed.

(** Later turns extend the trace and leave the records of earlier
    targets alone. *)
Lemma afterTurns_mono s n m :
  storeOk (tools s) -> n <= m ->
  exists ext,
    trace (afterTurns w m s) = trace (afterTurns w n s) ++ ext
    /\ tools (afterTurns w m s) = replay ext (tools (afterTurns w n s))
    /\ forallb inPlace ext = true
    /\ forall i, i < n ->
         tools (afterTurns w m s) !! i = tools (afterTurns w n s) !! i.
Proof.
  intros Hok Hnm. induction Hnm as [|m Hnm IH].
  - exists []. rewrite app_nil_r. repeat split; reflexivity.
  - destruct IH as (ext & Htr & Htools & Hin & Hkeep).
    simpl afterTurns. destruct (toolConfigs !! m) as [config|] eqn:Hm.
    + pose proof (afterTurns_storeOk w m s Hok) as Hokm.
      destruct (iteration_replay m config _ Hokm Hm) as (new & Htr' & Htools' & Hin').
      destruct (turn_run w m config _ Hokm Hm)
        as (k & outcome & record & new0 & _ & _ & Hit & _).
      exists (ext ++ new). rewrite Htr', Htr, <- app_assoc.
      split; [reflexivity|]. split; [rewrite Htools', Htools, replay_app; reflexivity|].
      split; [rewrite forallb_app, Hin, Hin'; reflexivity|].
      intros i Hi. rewrite <- Hkeep by exact Hi. rewrite Hit. simpl.
      apply list_lookup_insert_ne. lia.
    + exists ext. repeat split; assumption.
Qed.

End SweepTrace.

(** ** Turns seen through their telemetry *)

Section ByTelemetry.

Context (w : World).

(** A turn is decided by how its telemetry ends: normally, and the
    pacing delay follows, or with a throw, and the [catch] follows. *)
Lemma iteration_by_telemetry i config s idx :
  findIndex (ToolConfig.id config) (tools s) = Some idx ->
  exists k outcome,
    let polled := trace s ++ retrySchedule (ToolConfig.statusUrl config) k in
    let updated := updatedToolOf config outcome (now w polled) in
    let oldStatus := oldStatusOf config (tools s) in
    k <= MAX_RETRIES
    /\ checkToolStatus w config 0 s
       = (Normal outcome, {| tools := tools s; trace := polled |})
    /\ forall r evs,
         telemetry w updated outcome oldStatus
           {| tools := <[idx := updated]> (tools s);
              trace := polled ++ [StoreSet idx updated] |}
         = (r, {| tools := <[idx := updated]> (tools s);
                  trace := (polled ++ [StoreSet idx updated]) ++ evs |}) ->
         match r with
         | Normal _ =>
             iteration w i config s
             = (Normal tt,
                {| tools := <[idx := updated]> (tools s);
                   trace := polled ++ [StoreSet idx updated] ++ evs
                            ++ pacingEvents i |})
         | Throw e =>
             exists date,
               iteration w i config s
               = (Normal tt,
                  {| tools := <[idx := markUnknown updated date e]> (tools s);
                     trace := polled ++ [StoreSet idx updated] ++ evs
                              ++ [ConsoleErrorCaught (ToolConfig.name config) e;
                                  StoreSet idx (markUnknown updated date e)] |})
         end.
Proof.
  intros Hfind.
  destruct (checkToolStatus_run w config (MAX_RETRIES - 0) 0 s eq_refl)
    as (k & outcome & Hk & Hrun & _ & _).
  fold (retrySchedule (ToolConfig.statusUrl config) k) in Hrun.
  exists k, outcome. cbv zeta.
  set (polled := trace s ++ retrySchedule (ToolConfig.statusUrl config) k) in *.
  set (updated := updatedToolOf config outcome (now w polled)).
  set (oldStatus := oldStatusOf config (tools s)).
  set (s2 := {| tools := <[idx := updated]> (tools s);
                trace := polled ++ [StoreSet idx updated] |}).
  split; [exact Hk|]. split; [exact Hrun|].
  intros r evs Htel.
  assert (Htry :
    tryBlock w i config (findTool (ToolConfig.id config) (tools s)) s
    = (telemetry w updated outcome oldStatus;; pacing i) s2).
  { unfold tryBlock. rewrite (bind_normal _ _ _ _ _ Hrun).
    unfold newDateISO at 1.
    rewrite (bind_normal _ _ _ (now w polled) {| tools := tools s; trace := polled |})
      by reflexivity.
    rewrite (bind_normal _ _ _ tt s2); [reflexivity|].
    unfold storeUpdated. simpl. rewrite Hfind. reflexivity. }
  unfold iteration. rewrite (bind_normal _ _ s (tools s) s) by reflexivity.
  unfold tryCatch. rewrite Htry.
  destruct r as [[]|e].
  - rewrite (bind_normal _ _ _ _ _ Htel).
    unfold pacing, pacingEvents, delay, log, emit, mret, M_ret.
    destruct (i <? length toolConfigs - 1)%nat; simpl;
      unfold polled; rewrite <- ?app_assoc, ?app_nil_r; reflexivity.
  - rewrite (bind_throw _ _ _ _ _ Htel).
    destruct (findIndex_Some _ _ _ Hfind) as (t & Ht & Hid).
    eexists.
    unfold catchBlock.
    rewrite (bind_normal _ _ _ tt
               (emit (ConsoleErrorCaught (ToolConfig.name config) e)
                  {| tools := <[idx := updated]> (tools s);
                     trace := (polled ++ [StoreSet idx updated]) ++ evs |}))
      by reflexivity.
    unfold storeUnknown. simpl.
    rewrite findIndex_ids, (ids_insert _ _ t) by (assumption || (symmetry; exact Hid)).
    rewrite <- findIndex_ids, Hfind.
    rewrite list_lookup_insert_eq by (eapply lookup_lt_Some; exact Ht).
    rewrite list_insert_insert_eq. unfold polled.
    rewrite <- !app_assoc. reflexivity.
Qed.

(** A turn whose body does not throw: the poll, the write of its
    outcome, the whole telemetry and the pacing delay. *)
Lemma turn_normal i config s :
  storeOk (tools s) -> toolConfigs !! i = Some config ->
  fst (tryBlock w i config (findTool (ToolConfig.id config) (tools s)) s) = Normal tt ->
  exists k outcome,
    let polled := trace s ++ retrySchedule (ToolConfig.statusUrl config) k in
    let updated := updatedToolOf config outcome (now w polled) in
    k <= MAX_RETRIES
    /\ checkToolStatus w config 0 s
       = (Normal outcome, {| tools := tools s; trace := polled |})
    /\ iteration w i config s
       = (Normal tt,
          {| tools := <[i := updated]> (tools s);
             trace := polled ++ [StoreSet i updated]
                      ++ reportEvents updated outcome (oldStatusOf config (tools s))
                      ++ pacingEvents i |}).
Proof.
  intros Hok Hi Hnormal.
  destruct (iteration_run w i config s i (storeOk_index _ _ _ Hok Hi))
    as (k & outcome & evs & Hk & Hrun & _ & Hcases).
  cbv zeta in Hcases. exists k, outcome. cbv zeta.
  split; [exact Hk|]. split; [exact Hrun|].
  destruct Hcases as [(-> & _ & Hit) | (e & date & Htry & _)]; [exact Hit|].
  rewrite Hnormal in Htry. discriminate Htry.
Qed.

End ByTelemetry.

(** ** Sweeps in which the telemetry agent does not throw *)

Section Quiet.

Context (w : World).

Hypothesis quiet : forall h, newrelic w h = None.

(** With a quiet agent the telemetry emits all its events, unless the
    incident report cannot be built: then it stops after the log line. *)
Lemma telemetry_quiet config outcome date oldStatus s :
  let updated := updatedToolOf config outcome date in
  telemetry w updated outcome oldStatus s
  = if reportThrows outcome then
      (Throw (ErrorObject cannotConvert),
       {| tools := tools s;
          trace := trace s
                   ++ [RecordCustomEvent (ToolConfig.id config) (ToolConfig.name config)
                         (PollOutcome.status outcome)
                         (default 0%Z (PollOutcome.latencyMs outcome))
                         (truthyOpt (PollOutcome.error outcome));
                       ConsoleError (ToolConfig.name config) (ToolConfig.id config)
                         (PollOutcome.status outcome) (PollOutcome.error outcome)
                         (PollOutcome.latencyMs outcome)] |})
    else
      (Normal tt,
       {| tools := tools s;
          trace := trace s ++ reportEvents updated outcome oldStatus |}).
Proof.
  cbv zeta.
  unfold telemetry, reportEvents, reportThrows, updatedToolOf, callNewrelic, throw,
    log, emit, mbind, M_bind, mret, M_ret.
  cbn [ToolStatus.id ToolStatus.name ToolStatus.status ToolStatus.latencyMs
       ToolStatus.error].
  rewrite quiet. cbn [tools trace].
  destruct (Verdict_eqb (PollOutcome.status outcome) down) eqn:Hdown;
    cbn [orb andb tools trace].
  - destruct (interpolates _) eqn:Hi; cbn [negb].
    + rewrite quiet. cbn [tools trace]. rewrite <- !app_assoc. reflexivity.
    + rewrite <- !app_assoc. reflexivity.
  - destruct (truthyOpt (PollOutcome.error outcome)); cbn [tools trace];
      rewrite <- ?app_assoc; reflexivity.
Qed.

(** The calls of a turn, in order, when the agent is quiet. *)
Lemma turn_quiet i config s :
  storeOk (tools s) -> toolConfigs !! i = Some config ->
  exists k outcome,
    let polled := trace s ++ retrySchedule (ToolConfig.statusUrl config) k in
    let updated := updatedToolOf config outcome (now w polled) in
    k <= MAX_RETRIES
    /\ checkToolStatus w config 0 s
       = (Normal outcome, {| tools := tools s; trace := polled |})
    /\ (reportThrows outcome = false ->
        iteration w i config s
        = (Normal tt,
           {| tools := <[i := updated]> (tools s);
              trace := polled ++ [StoreSet i updated]
                       ++ reportEvents updated outcome (oldStatusOf config (tools s))
                       ++ pacingEvents i |}))
    /\ (reportThrows outcome = true ->
        exists date,
          let record := markUnknown updated date (ErrorObject cannotConvert) in
          iteration w i config s
          = (Normal tt,
             {| tools := <[i := record]> (tools s);
                trace := polled
                         ++ [StoreSet i updated;
                             RecordCustomEvent (ToolConfig.id config)
                               (ToolConfig.name config) (PollOutcome.status outcome)
                               (default 0%Z (PollOutcome.latencyMs outcome))
                               (truthyOpt (PollOutcome.error outcome));
                             ConsoleError (ToolConfig.name config) (ToolConfig.id config)
                               (PollOutcome.status outcome) (PollOutcome.error outcome)
                               (PollOutcome.latencyMs outcome);
                             ConsoleErrorCaught (ToolConfig.name config)
                               (ErrorObject cannotConvert);
                             StoreSet i record] |})).
Proof.
  intros Hok Hi.
  destruct (iteration_by_telemetry w i config s i (storeOk_index _ _ _ Hok Hi))
    as (k & outcome & Hk & Hrun & Hit).
  cbv zeta in Hit. exists k, outcome. cbv zeta.
  split; [exact Hk|]. split; [exact Hrun|].
  pose proof (telemetry_quiet config outcome
                (now w (trace s ++ retrySchedule (ToolConfig.statusUrl config) k))
                (oldStatusOf config (tools s))
                {| tools := <[i := updatedToolOf config outcome
                                     (now w (trace s ++ retrySchedule
                                               (ToolConfig.statusUrl config) k))]>
                              (tools s);
                   trace := (trace s ++ retrySchedule (ToolConfig.statusUrl config) k)
                            ++ [StoreSet i
                                  (updatedToolOf config outcome
                                     (now w (trace s ++ retrySchedule
                                               (ToolConfig.statusUrl config) k)))] |})
    as Htel.
  cbv zeta in Htel. cbn [tools trace] in Htel.
  split; intros Hthrows; rewrite Hthrows in Htel.
  - exact (Hit _ _ Htel).
  - destruct (Hit _ _ Htel) as [date Hiter]. exists date. cbv zeta.
    rewrite Hiter. reflexivity.
Qed.

End Quiet.

(** ** Pacing *)

Lemma paceView_app evs1 evs2 : paceView (evs1 ++ evs2) = paceView evs1 ++ paceView evs2.
Proof. apply List.filter_app. Qed.

Lemma paceView_retrySchedule url k : paceView (retrySchedule url k) = retrySchedule url k.
Proof.
  unfold retrySchedule, scheduleFrom, paceView. cbn [List.filter isFetchOrDelay].
  f_equal. generalize (0 + 1).
  induction k as [|k IH]; intros n; simpl; [reflexivity|].
  rewrite IH. reflexivity.
Qed.

Lemma paceView_reportEvents updated outcome oldStatus :
  paceView (reportEvents updated outcome oldStatus) = [].
Proof.
  unfold reportEvents.
  destruct (Verdict_eqb (PollOutcome.status outcome) down),
    (truthyOpt (PollOutcome.error outcome)); reflexivity.
Qed.

Lemma afterTurns_S (w : World) n config s :
  toolConfigs !! n = Some config ->
  afterTurns w (S n) s = snd (iteration w n config (afterTurns w n s)).
Proof. intros H. simpl. rewrite H. reflexivity. Qed.

Lemma turn_pace_normal (w : World) i config s :
  storeOk (tools s) -> toolConfigs !! i = Some config ->
  fst (tryBlock w i config (findTool (ToolConfig.id config) (tools s)) s) = Normal tt ->
  exists k new,
    trace (snd (iteration w i config s)) = trace s ++ new
    /\ paceView new = retrySchedule (ToolConfig.statusUrl config) k ++ pacingEvents i.
Proof.
  intros Hok Hi Hnormal.
  destruct (turn_normal w i config s Hok Hi Hnormal) as (k & o & _ & _ & Hit).
  rewrite Hit. cbn [snd trace]. exists k. eexists. split.
  - rewrite <- !app_assoc. reflexivity.
  - rewrite !paceView_app, paceView_retrySchedule, paceView_reportEvents.
    unfold pacingEvents. destruct (i <? _)%nat; reflexivity.
Qed.

(** When the body of no turn throws, the sweep polls the targets in
    registry order with [CHECK_DELAY_MS] between two targets and nothing
    after the last one. *)
Lemma pacing_when_quiet (w : World) (s : State) :
  storeOk (tools s) ->
  (forall i config,
      toolConfigs !! i = Some config ->
      fst (tryBlock w i config
             (findTool (ToolConfig.id config) (tools (afterTurns w i s)))
             (afterTurns w i s))
      = Normal tt) ->
  exists k0 k1 k2 new,
    trace (snd (checkAllToolsStatus w s)) = trace s ++ new
    /\ paceView new
       = retrySchedule (urlOf 0) k0 ++ [Delay CHECK_DELAY_MS]
         ++ retrySchedule (urlOf 1) k1 ++ [Delay CHECK_DELAY_MS]
         ++ retrySchedule (urlOf 2) k2.
Proof.
  intros Hok Hq. rewrite checkAllToolsStatus_run by exact Hok. cbn [snd].
  change (length toolConfigs) with 3.
  destruct (turn_pace_normal w 0 chatgptConfig (afterTurns w 0 s)
              (afterTurns_storeOk w 0 s Hok) eq_refl (Hq 0 chatgptConfig eq_refl))
    as (k0 & new0 & Ht0 & Hp0).
  destruct (turn_pace_normal w 1 claudeConfig (afterTurns w 1 s)
              (afterTurns_storeOk w 1 s Hok) eq_refl (Hq 1 claudeConfig eq_refl))
    as (k1 & new1 & Ht1 & Hp1).
  destruct (turn_pace_normal w 2 cursorConfig (afterTurns w 2 s)
              (afterTurns_storeOk w 2 s Hok) eq_refl (Hq 2 cursorConfig eq_refl))
    as (k2 & new2 & Ht2 & Hp2).
  rewrite <- (afterTurns_S w 0 chatgptConfig s eq_refl) in Ht0.
  rewrite <- (afterTurns_S w 1 claudeConfig s eq_refl) in Ht1.
  rewrite <- (afterTurns_S w 2 cursorConfig s eq_refl) in Ht2.
  exists k0, k1, k2, (new0 ++ new1 ++ new2). split.
  - rewrite Ht2, Ht1, Ht0, <- !app_assoc. reflexivity.
  - rewrite !paceView_app, Hp0, Hp1, Hp2, <- !app_assoc.
    change (pacingEvents 0) with [Delay CHECK_DELAY_MS].
    change (pacingEvents 1) with [Delay CHECK_DELAY_MS].
    change (pacingEvents 2) with (@nil Event).
    rewrite app_nil_r. reflexivity.
Qed.

(** ** Failures caught by the sweep *)

Lemma storeOk_initialTools (w : World) : storeOk (initialTools w).
Proof. reflexivity. Qed.

(** C8: on a well-formed store the sweep never aborts. Each target is
    polled from the state its turn starts in, and its record at the end
    of the sweep is the one built from the outcome of that poll when the
    body of the turn completes, or, when the body throws, a record with
    verdict unknown and the message of the failure; in both cases the
    record is written during the sweep. *)
Theorem C8_sweep_survives_throw (w : World) (s : State) :
  storeOk (tools s) ->
  let final := snd (checkAllToolsStatus w s) in
  fst (checkAllToolsStatus w s) = Normal tt
  /\ forall i config,
       toolConfigs !! i = Some config ->
       let before := afterTurns w i s in
       exists k outcome record new,
         let polled := trace before ++ retrySchedule (ToolConfig.statusUrl config) k in
         checkToolStatus w config 0 before
           = (Normal outcome, {| tools := tools before; trace := polled |})
         /\ match fst (tryBlock w i config
                         (findTool (ToolConfig.id config) (tools before)) before) with
            | Normal _ =>
                record = ToolStatus.mk (ToolConfig.id config) (ToolConfig.name config)
                           (PollOutcome.status outcome) (now w polled)
                           (PollOutcome.latencyMs outcome) (PollOutcome.error outcome)
            | Throw e =>
                exists date,
                  record = ToolStatus.mk (ToolConfig.id config) (ToolConfig.name config)
                             unknown date (PollOutcome.latencyMs outcome)
                             (Some (JStr (caughtMessage e)))
            end
         /\ tools final !! i = Some record
         /\ trace final = trace s ++ new
         /\ In (Fetch (ToolConfig.statusUrl config)) new
         /\ In (StoreSet i record) new.
Proof.
  intros Hok final. subst final.
  rewrite checkAllToolsStatus_run by exact Hok. cbn [fst snd].
  split; [reflexivity|].
  intros i config Hi. set (before := afterTurns w i s).
  pose proof (afterTurns_storeOk w i s Hok) as Hokb. fold before in Hokb.
  destruct (turn_run w i config before Hokb Hi)
    as (k & outcome & record & newi & _ & Hrun & Hit & Hrec & Hfetch & Hset & _).
  cbv zeta in Hrec.
  pose proof (lookup_lt_Some _ _ _ Hi) as Hlt.
  destruct (afterTurns_mono w s 0 i Hok ltac:(lia)) as (ext1 & Htr1 & _).
  destruct (afterTurns_mono w s (S i) (length toolConfigs) Hok ltac:(lia))
    as (ext2 & Htr2 & _ & _ & Hkeep).
  rewrite (afterTurns_S w i config s Hi) in Htr2, Hkeep.
  fold before in Htr1, Htr2, Hkeep. rewrite Hit in Htr2, Hkeep.
  cbn [snd tools trace] in Htr1, Htr2, Hkeep.
  exists k, outcome, record, (ext1 ++ newi ++ ext2). cbv zeta.
  split; [exact Hrun|]. split; [exact Hrec|]. split; [|split; [|split]].
  - rewrite (Hkeep i) by lia. apply list_lookup_insert_eq.
    rewrite (storeOk_length _ Hokb). exact Hlt.
  - rewrite Htr2, Htr1, <- !app_assoc. reflexivity.
  - apply in_or_app; right. apply in_or_app; left. exact Hfetch.
  - apply in_or_app; right. apply in_or_app; left. exact Hset.
Qed.

(** The scenario of the specification: three targets, the turn of the
    second one throws. *)
Lemma C8_sweep_survives_throw_witness :
  fst (checkAllToolsStatus throwWorld (initialState throwWorld)) = Normal tt
  /\ List.map (fun t => (ToolStatus.status t, ToolStatus.error t))
       (tools (snd (checkAllToolsStatus throwWorld (initialState throwWorld))))
     = [(healthy, None);
        (unknown, Some (JStr "agent not connected"));
        (healthy, None)].
Proof.
  destruct (C8_sweep_survives_throw throwWorld (initialState throwWorld)
              (storeOk_initialTools throwWorld)) as [Hnormal _].
  split; [exact Hnormal|]. vm_compute. reflexivity.
Defined.

(** ** The store holds one record per target *)

Lemma countFor_ids i l :
  countFor i l = length (List.filter (fun j => ToolId_eqb j i) (List.map ToolStatus.id l)).
Proof.
  unfold countFor. induction l as [|t l IH]; simpl; [reflexivity|].
  destruct (ToolId_eqb (ToolStatus.id t) i); simpl; rewrite IH; reflexivity.
Qed.

(** C10: the store starts with one record per target, verdict unknown
    and no latency; a well-formed store has exactly one record for each
    target; every write of a sweep replaces the record of a target by a
    record of that target, so that the store is well formed after each
    write and nothing is ever appended; the store is well formed after
    any number of sweeps; and the write of the [catch] changes the
    verdict, the date and the diagnostic only. *)
Theorem C10_one_record_per_target (w : World) :
  (storeOk (initialTools w)
   /\ Forall (fun t => ToolStatus.status t = unknown
                       /\ ToolStatus.latencyMs t = None) (initialTools w))
  /\ (forall l, storeOk l ->
        length l = length toolConfigs
        /\ forall config, In config toolConfigs ->
             countFor (ToolConfig.id config) l = 1)
  /\ (forall s, storeOk (tools s) ->
        exists new,
          trace (snd (checkAllToolsStatus w s)) = trace s ++ new
          /\ tools (snd (checkAllToolsStatus w s)) = replay new (tools s)
          /\ forallb inPlace new = true
          /\ forall done, done `prefix_of` new -> storeOk (replay done (tools s)))
  /\ (forall n, storeOk (tools (afterSweeps w n)))
  /\ (forall config e s idx t,
        findIndex (ToolConfig.id config) (tools s) = Some idx ->
        tools s !! idx = Some t ->
        exists date,
          tools (snd (storeUnknown w config e s))
          = <[idx := ToolStatus.mk (ToolStatus.id t) (ToolStatus.name t) unknown date
                       (ToolStatus.latencyMs t) (Some (JStr (caughtMessage e)))]>
              (tools s)).
Proof.
  split; [|split; [|split; [|split]]].
  - split; [reflexivity|]. unfold initialTools, toolConfigs. simpl.
    repeat constructor.
  - intros l Hok. split; [apply storeOk_length; exact Hok|].
    intros config Hin. rewrite countFor_ids, Hok.
    simpl in Hin. destruct Hin as [<-|[<-|[<-|[]]]]; reflexivity.
  - intros s Hok. rewrite checkAllToolsStatus_run by exact Hok. cbn [snd].
    destruct (afterTurns_mono w s 0 (length toolConfigs) Hok ltac:(lia))
      as (new & Htr & Htools & Hin & _).
    exists new. split; [exact Htr|]. split; [exact Htools|]. split; [exact Hin|].
    intros done Hdone. apply storeOk_replay; [exact Hok|].
    eapply inPlace_prefix; eassumption.
  - induction n as [|n IH]; [reflexivity|]. simpl afterSweeps.
    rewrite checkAllToolsStatus_run by exact IH.
    apply afterTurns_storeOk. exact IH.
  - intros config e s idx t Hfind Ht. unfold storeUnknown.
    rewrite Hfind, Ht. eexists. reflexivity.
Qed.

(** ** Telemetry and verdict changes *)




(** ** Pacing after a caught failure *)

(** C7, on the sweep in which the turn of the second target throws: the
    third target is requested without the pacing delay; the only delay
    of the sweep is the one between the first two targets. *)
Theorem C7_no_delay_after_caught_throw :
  let s := snd (checkAllToolsStatus throwWorld (initialState throwWorld)) in
  paceView (trace s)
  = [Fetch "https://status.openai.com/api/v2/status.json";
     Delay 2000;
     Fetch "https://status.claude.com/api/v2/status.json";
     Fetch "https://status.cursor.com/api/v2/status.json"]
  /\ List.map ToolStatus.status (tools s) = [healthy; unknown; healthy].
Proof. vm_compute. split; reflexivity. Qed.

(** * Further properties of the engine *)

(** ** The outcome of a poll *)

Lemma onResponse_latency response latencyMs :
  PollOutcome.latencyMs (onResponse response latencyMs) = Some latencyMs.
Proof.
  unfold onResponse.
  repeat match goal with
         | |- context [if ?c then _ else _] => destruct c
         | |- context [match ?x with _ => _ end] => destruct x
         end; reflexivity.
Qed.

Lemma onExhausted_latency lastError :
  PollOutcome.latencyMs (onExhausted lastError) = None.
Proof. unfold onExhausted. destruct (_ || _); reflexivity. Qed.

(** The whole poll, as the claims use it: [k] retries, then the last
    attempt decides. *)
Lemma poll_run (w : World) (config : ToolConfig.t) (s : State) :
  exists k o,
    k <= MAX_RETRIES
    /\ checkToolStatus w config 0 s
       = (Normal o,
          {| tools := tools s;
             trace := trace s ++ retrySchedule (ToolConfig.statusUrl config) k |})
    /\ (forall j, j < k ->
          exists e,
            fetch w (trace s ++ retrySchedule (ToolConfig.statusUrl config) j)
            = Rejected e)
    /\ match fetch w (trace s ++ retrySchedule (ToolConfig.statusUrl config) k) with
       | Completed response latencyMs => o = onResponse response latencyMs
       | Rejected e =>
           k = MAX_RETRIES /\ o = onExhausted (lastErrorOf (errorMessageOf e))
       end.
Proof.
  exact (checkToolStatus_run w config (MAX_RETRIES - 0) 0 s eq_refl).
Qed.

(** X1: a completed response whose status is neither 2xx nor 429 and is
    below 500 (a redirect or a client error) gives down with
    "HTTP <status>" and the measured latency, after a single request. *)
Theorem X1_other_status_is_down (w : World) (config : ToolConfig.t)
    (retryCount : nat) (s : State) (response : Response) (latencyMs : Z) :
  fetch w (trace s ++ [Fetch (ToolConfig.statusUrl config)])
    = Completed response latencyMs ->
  ok response = false ->
  resp_status response <> 429%Z ->
  (resp_status response < 500)%Z ->
  checkToolStatus w config retryCount s
  = (Normal (PollOutcome.mk down (Some latencyMs)
               (Some (JStr ("HTTP " +:+ numberToString (resp_status response))))),
     {| tools := tools s;
        trace := trace s ++ [Fetch (ToolConfig.statusUrl config)] |}).
Proof.
  intros Hf Hok H429 H500. rewrite checkToolStatus_step, Hf.
  unfold onResponse. rewrite Hok.
  assert ((resp_status response =? 429)%Z = false) as ->
      by (apply Z.eqb_neq; exact H429).
  assert ((resp_status response >=? 500)%Z = false) as ->
      by (rewrite Z.geb_leb; apply Z.leb_gt; exact H500).
  reflexivity.
Qed.

Lemma X1_other_status_is_down_witness :
  checkToolStatus (steadyWorld (respond 404 None 95)) claudeConfig 0
    {| tools := []; trace := [] |}
  = (Normal (PollOutcome.mk down (Some 95%Z) (Some (JStr "HTTP 404"))),
     {| tools := []; trace := [Fetch (ToolConfig.statusUrl claudeConfig)] |}).
Proof.
  exact (X1_other_status_is_down (steadyWorld (respond 404 None 95)) claudeConfig 0
           {| tools := []; trace := [] |}
           {| resp_status := 404; resp_json := None |} 95
           eq_refl eq_refl ltac:(discriminate) eq_refl).
Defined.

(** X2: the latency of an outcome is null exactly when the poll got no
    response at all: then all three attempts were rejected. Otherwise it
    is the latency measured on the last attempt, which completed. *)
Theorem X2_latency_null_iff_no_response (w : World) (config : ToolConfig.t)
    (s : State) :
  exists k o,
    checkToolStatus w config 0 s
    = (Normal o,
       {| tools := tools s;
          trace := trace s ++ retrySchedule (ToolConfig.statusUrl config) k |})
    /\ match PollOutcome.latencyMs o with
       | None =>
           k = MAX_RETRIES
           /\ forall j, j <= MAX_RETRIES ->
                exists e,
                  fetch w (trace s ++ retrySchedule (ToolConfig.statusUrl config) j)
                  = Rejected e
       | Some latencyMs =>
           exists response,
             fetch w (trace s ++ retrySchedule (ToolConfig.statusUrl config) k)
             = Completed response latencyMs
       end.
Proof.
  destruct (poll_run w config s) as (k & o & Hk & Hrun & Hrej & Hlast).
  exists k, o. split; [exact Hrun|].
  destruct (fetch w (trace s ++ retrySchedule (ToolConfig.statusUrl config) k))
    as [r l|e] eqn:Hf.
  - subst o. rewrite onResponse_latency. exists r. reflexivity.
  - destruct Hlast as [-> ->]. rewrite onExhausted_latency.
    split; [reflexivity|]. intros j Hj.
    destruct (Nat.eq_dec j MAX_RETRIES) as [->|Hne]; [exists e; exact Hf|].
    apply Hrej. lia.
Qed.

Lemma onResponse_parsed response latencyMs data :
  ok response = true -> resp_json response = Some data -> data <> JNull ->
  onResponse response latencyMs
  = match indicatorOf data with
    | Some (JStr i) =>
        if String.eqb i "none" then
          PollOutcome.mk (latencyVerdict latencyMs) (Some latencyMs) None
        else if String.eqb i "minor" then
          PollOutcome.mk degraded (Some latencyMs)
            (Some (orElse (descriptionOf data) (JStr "Minor service outage")))
        else if String.eqb i "major" || String.eqb i "critical" then
          PollOutcome.mk down (Some latencyMs)
            (Some (orElse (descriptionOf data) (JStr ("Service status: " +:+ i))))
        else if String.eqb i "partial" then
          PollOutcome.mk degraded (Some latencyMs)
            (Some (orElse (descriptionOf data) (JStr "Partial outage detected")))
        else PollOutcome.mk (latencyVerdict latencyMs) (Some latencyMs) None
    | _ => PollOutcome.mk (latencyVerdict latencyMs) (Some latencyMs) None
    end.
Proof.
  intros Hok Hjson Hnull. unfold onResponse. rewrite Hok, Hjson.
  fold (indicatorOf data) (descriptionOf data).
  rewrite latencyVerdict_gt.
  assert (Hmatch : forall (A : Type) (a b : A),
             match data with JNull => a | _ => b end = b)
    by (intros; destruct data; congruence).
  rewrite Hmatch.
  destruct (indicatorOf data) as [[| | |i| |]|]; try reflexivity.
  rewrite !orElse_description. reflexivity.
Qed.

Lemma onResponse_not_ok response latencyMs :
  ok response = false ->
  PollOutcome.status (onResponse response latencyMs) = degraded
  \/ PollOutcome.status (onResponse response latencyMs) = down.
Proof.
  intros Hok. unfold onResponse. rewrite Hok.
  destruct (_ =? _)%Z; [left; reflexivity|].
  destruct (_ >=? _)%Z; right; reflexivity.
Qed.

Lemma onExhausted_status lastError :
  PollOutcome.status (onExhausted lastError) = degraded
  \/ PollOutcome.status (onExhausted lastError) = down.
Proof. unfold onExhausted. destruct (_ || _); [left|right]; reflexivity. Qed.

(** A healthy verdict comes from a 2xx response received within 2000 ms
    whose body was read and does not announce an incident. *)
Lemma onResponse_healthy response latencyMs :
  PollOutcome.status (onResponse response latencyMs) = healthy ->
  ok response = true
  /\ (latencyMs <= 2000)%Z
  /\ onResponse response latencyMs = PollOutcome.mk healthy (Some latencyMs) None
  /\ exists data,
       resp_json response = Some data /\ data <> JNull
       /\ forall i, In i ["minor"; "major"; "critical"; "partial"] ->
                    indicatorOf data <> Some (JStr i).
Proof.
  intros H. destruct (ok response) eqn:Hok.
  2:{ destruct (onResponse_not_ok response latencyMs Hok) as [H'|H'];
      rewrite H' in H; discriminate H. }
  destruct (resp_json response) as [data|] eqn:Hjson.
  2:{ unfold onResponse in H. rewrite Hok, Hjson in H. discriminate H. }
  assert (Hnull : data <> JNull).
  { intros ->. unfold onResponse in H. rewrite Hok, Hjson in H. discriminate H. }
  rewrite (onResponse_parsed _ _ data Hok Hjson Hnull) in H |- *.
  assert (Hlat : latencyVerdict latencyMs = healthy ->
                 (latencyMs <= 2000)%Z).
  { unfold latencyVerdict. destruct (Z.leb_spec latencyMs 2000); [tauto|discriminate]. }
  assert (Hfin : forall ind,
    indicatorOf data = ind ->
    latencyVerdict latencyMs = healthy ->
    (forall i, In i ["minor"; "major"; "critical"; "partial"] -> ind <> Some (JStr i)) ->
    true = true
    /\ (latencyMs <= 2000)%Z
    /\ PollOutcome.mk (latencyVerdict latencyMs) (Some latencyMs) None
       = PollOutcome.mk healthy (Some latencyMs) None
    /\ exists data0,
         Some data = Some data0 /\ data0 <> JNull
         /\ forall i, In i ["minor"; "major"; "critical"; "partial"] ->
                      indicatorOf data0 <> Some (JStr i)).
  { intros ind Hind Hv Hne. rewrite Hv. split; [reflexivity|].
    split; [apply Hlat; exact Hv|]. split; [reflexivity|].
    exists data. split; [reflexivity|]. split; [exact Hnull|].
    rewrite Hind. exact Hne. }
  destruct (indicatorOf data) as [[| | |i| |]|] eqn:Hind;
    try (apply (Hfin _ eq_refl H); intros i' _; discriminate).
  destruct (String.eqb i "none") eqn:E0.
  { apply String.eqb_eq in E0. subst i.
    apply (Hfin _ eq_refl H). intros i' Hi' Heq. injection Heq as <-.
    simpl in Hi'. destruct Hi' as [Hi'|[Hi'|[Hi'|[Hi'|[]]]]]; discriminate Hi'. }
  destruct (String.eqb i "minor") eqn:E1; [discriminate H|].
  destruct (String.eqb i "major" || String.eqb i "critical") eqn:E2; [discriminate H|].
  destruct (String.eqb i "partial") eqn:E3; [discriminate H|].
  apply orb_false_iff in E2 as [E2 E2'].
  apply (Hfin _ eq_refl H). intros i' Hi' Heq. injection Heq as <-.
  simpl in Hi'.
  destruct Hi' as [<-|[<-|[<-|[<-|[]]]]]; discriminate.
Qed.

(** X3: whenever a poll returns healthy, its last attempt was a 2xx
    response received within 2000 ms whose body was read and whose
    indicator is none of minor, major, critical and partial; the outcome
    then carries that latency and no diagnostic. *)
Theorem X3_healthy_means_fast_2xx (w : World) (config : ToolConfig.t)
    (s s' : State) (o : PollOutcome.t) :
  checkToolStatus w config 0 s = (Normal o, s') ->
  PollOutcome.status o = healthy ->
  exists k response latencyMs data,
    s' = {| tools := tools s;
            trace := trace s ++ retrySchedule (ToolConfig.statusUrl config) k |}
    /\ fetch w (trace s') = Completed response latencyMs
    /\ ok response = true
    /\ (latencyMs <= 2000)%Z
    /\ resp_json response = Some data /\ data <> JNull
    /\ (forall i, In i ["minor"; "major"; "critical"; "partial"] ->
                  indicatorOf data <> Some (JStr i))
    /\ o = PollOutcome.mk healthy (Some latencyMs) None.
Proof.
  intros Hrun Hh.
  destruct (poll_run w config s) as (k & o' & _ & Hrun' & _ & Hlast).
  rewrite Hrun' in Hrun. injection Hrun as -> <-. cbn [trace].
  destruct (fetch w (trace s ++ retrySchedule (ToolConfig.statusUrl config) k))
    as [r l|e] eqn:Hf.
  - subst o.
    destruct (onResponse_healthy r l Hh) as (Hok & Hl & Heq & data & Hjson & Hnull & Hind).
    exists k, r, l, data. repeat split; assumption.
  - destruct Hlast as [_ ->].
    destruct (onExhausted_status (lastErrorOf (errorMessageOf e))) as [H'|H'];
      rewrite H' in Hh; discriminate Hh.
Qed.

Lemma X3_healthy_means_fast_2xx_witness :
  exists k response latencyMs,
    fetch (steadyWorld (respond 200 (Some (statusPage "none" "All Systems Operational")) 500))
      (retrySchedule (ToolConfig.statusUrl claudeConfig) k)
    = Completed response latencyMs
    /\ (latencyMs <= 2000)%Z.
Proof.
  destruct (X3_healthy_means_fast_2xx
              (steadyWorld (respond 200 (Some (statusPage "none" "All Systems Operational")) 500))
              claudeConfig {| tools := []; trace := [] |}
              {| tools := []; trace := [Fetch (ToolConfig.statusUrl claudeConfig)] |}
              (PollOutcome.mk healthy (Some 500%Z) None) eq_refl eq_refl)
    as (k & r & l & data & Hs & Hf & _ & Hl & _).
  exists k, r, l. split; [|exact Hl].
  injection Hs as Htr. rewrite Htr in Hf. exact Hf.
Defined.

Lemma latencyVerdict_cases latencyMs :
  latencyVerdict latencyMs = healthy \/ latencyVerdict latencyMs = degraded.
Proof. unfold latencyVerdict. destruct (_ <=? _)%Z; [left|right]; reflexivity. Qed.

Lemma onResponse_unknown response latencyMs :
  PollOutcome.status (onResponse response latencyMs) = unknown
  <-> ok response = true
      /\ (resp_json response = None \/ resp_json response = Some JNull).
Proof.
  split.
  - intros H. destruct (ok response) eqn:Hok.
    2:{ destruct (onResponse_not_ok response latencyMs Hok) as [H'|H'];
        rewrite H' in H; discriminate H. }
    split; [reflexivity|].
    destruct (resp_json response) as [data|] eqn:Hjson; [|left; reflexivity].
    right. f_equal.
    destruct data as [| | | | |] eqn:Hdata; [reflexivity|exfalso..];
      (erewrite onResponse_parsed in H; [|exact Hok|exact Hjson|discriminate]);
      (match type of H with
       | context [indicatorOf ?d] => destruct (indicatorOf d) as [[| | |i| |]|]
       end;
       repeat match type of H with
              | context [if ?c then _ else _] => destruct c
              end;
       simpl in H;
       try discriminate H;
       destruct (latencyVerdict_cases latencyMs) as [H'|H'];
       rewrite H' in H; discriminate H).
  - intros [Hok Hjson]. unfold onResponse. rewrite Hok.
    destruct Hjson as [-> | ->]; reflexivity.
Qed.

(** X4: a poll returns unknown exactly when its last attempt was a 2xx
    response whose body could not be read as the status page. *)
Theorem X4_unknown_iff_unreadable_body (w : World) (config : ToolConfig.t)
    (s s' : State) (o : PollOutcome.t) :
  checkToolStatus w config 0 s = (Normal o, s') ->
  (PollOutcome.status o = unknown
   <-> exists response latencyMs,
         fetch w (trace s') = Completed response latencyMs
         /\ ok response = true
         /\ (resp_json response = None \/ resp_json response = Some JNull)).
Proof.
  intros Hrun.
  destruct (poll_run w config s) as (k & o' & _ & Hrun' & _ & Hlast).
  rewrite Hrun' in Hrun. injection Hrun as -> <-. cbn [trace].
  destruct (fetch w (trace s ++ retrySchedule (ToolConfig.statusUrl config) k))
    as [r l|e] eqn:Hf.
  - subst o. rewrite onResponse_unknown. split.
    + intros H. exists r, l. split; [reflexivity|exact H].
    + intros (r' & l' & Heq & H). injection Heq as <- <-. exact H.
  - destruct Hlast as [_ ->]. split.
    + intros H.
      destruct (onExhausted_status (lastErrorOf (errorMessageOf e))) as [H'|H'];
        rewrite H' in H; discriminate H.
    + intros (r' & l' & Heq & _). discriminate Heq.
Qed.

Lemma X4_unknown_iff_unreadable_body_witness :
  exists response latencyMs,
    fetch (steadyWorld (respond 200 None 80))
      [Fetch (ToolConfig.statusUrl claudeConfig)]
    = Completed response latencyMs
    /\ ok response = true
    /\ (resp_json response = None \/ resp_json response = Some JNull).
Proof.
  apply (X4_unknown_iff_unreadable_body (steadyWorld (respond 200 None 80))
           claudeConfig {| tools := []; trace := [] |}
           {| tools := []; trace := [Fetch (ToolConfig.statusUrl claudeConfig)] |}
           (PollOutcome.mk unknown (Some 80%Z)
              (Some (JStr "Failed to parse status API response")))
           eq_refl).
  reflexivity.
Defined.

(** Three rejected attempts end the poll with the outcome of the last
    failure. *)
Lemma exhausted_run (w : World) (config : ToolConfig.t) (s : State)
    (e0 e1 e2 : Thrown) :
  fetch w (trace s ++ retrySchedule (ToolConfig.statusUrl config) 0) = Rejected e0 ->
  fetch w (trace s ++ retrySchedule (ToolConfig.statusUrl config) 1) = Rejected e1 ->
  fetch w (trace s ++ retrySchedule (ToolConfig.statusUrl config) 2) = Rejected e2 ->
  checkToolStatus w config 0 s
  = (Normal (onExhausted (lastErrorOf (errorMessageOf e2))),
     {| tools := tools s;
        trace := trace s ++ retrySchedule (ToolConfig.statusUrl config) 2 |}).
Proof.
  intros H0 H1 H2.
  destruct (poll_run w config s) as (k & o & Hk & Hrun & _ & Hlast).
  unfold MAX_RETRIES in Hk.
  destruct k as [|[|[|k]]]; [| | |lia].
  - rewrite H0 in Hlast. destruct Hlast as [Hk' _]. discriminate Hk'.
  - rewrite H1 in Hlast. destruct Hlast as [Hk' _]. discriminate Hk'.
  - rewrite H2 in Hlast. destruct Hlast as [_ ->]. exact Hrun.
Qed.

Lemma fixed_texts_not_rate_limited :
  includes "Request timeout" "Rate limited" || includes "Request timeout" "429" = false
  /\ includes "Connection failed" "Rate limited" || includes "Connection failed" "429"
     = false.
Proof. split; reflexivity. Qed.

(** X5: when the three attempts of a poll are rejected, the verdict is
    degraded exactly when the message of the last failure contains
    "Rate limited" or "429" and none of [aborted], [timeout],
    [ECONNREFUSED] and [ENOTFOUND]; in every other case it is down. A
    message that names both a timeout and a rate limit is a timeout. *)
Theorem X5_exhausted_verdict_by_message (w : World) (config : ToolConfig.t)
    (s : State) (e0 e1 e2 : Thrown) :
  let url := ToolConfig.statusUrl config in
  let message := errorMessageOf e2 in
  fetch w (trace s ++ retrySchedule url 0) = Rejected e0 ->
  fetch w (trace s ++ retrySchedule url 1) = Rejected e1 ->
  fetch w (trace s ++ retrySchedule url 2) = Rejected e2 ->
  exists o s',
    checkToolStatus w config 0 s = (Normal o, s')
    /\ (PollOutcome.status o = degraded \/ PollOutcome.status o = down)
    /\ (PollOutcome.status o = degraded
        <-> includes message "aborted" = false
            /\ includes message "timeout" = false
            /\ includes message "ECONNREFUSED" = false
            /\ includes message "ENOTFOUND" = false
            /\ (includes message "Rate limited" = true
                \/ includes message "429" = true)).
Proof.
  intros url message H0 H1 H2.
  rewrite (exhausted_run w config s e0 e1 e2 H0 H1 H2).
  eexists _, _. split; [reflexivity|]. fold message.
  split; [apply onExhausted_status|].
  destruct fixed_texts_not_rate_limited as [Ht Hc].
  unfold lastErrorOf, onExhausted.
  destruct (includes message "aborted") eqn:Ea;
    [cbn [orb]; rewrite Ht; cbn; split; [discriminate|intros [H _]; discriminate H]|].
  destruct (includes message "timeout") eqn:Eto;
    [cbn [orb]; rewrite Ht; cbn;
     split; [discriminate|intros (_ & H & _); discriminate H]|].
  cbn [orb].
  destruct (includes message "ECONNREFUSED") eqn:Ec;
    [cbn [orb]; rewrite Hc; cbn;
     split; [discriminate|intros (_ & _ & H & _); discriminate H]|].
  destruct (includes message "ENOTFOUND") eqn:En;
    [cbn [orb]; rewrite Hc; cbn;
     split; [discriminate|intros (_ & _ & _ & H & _); discriminate H]|].
  cbn [orb].
  destruct (includes message "Rate limited") eqn:Er; cbn [orb].
  - cbn. split; [intros _; repeat split; left; reflexivity|reflexivity].
  - destruct (includes message "429") eqn:E4; cbn.
    + split; [intros _; repeat split; right; reflexivity|reflexivity].
    + split; [discriminate|intros (_ & _ & _ & _ & [H|H]); discriminate H].
Qed.

Lemma X5_exhausted_verdict_by_message_witness :
  exists o s',
    checkToolStatus
      (steadyWorld (Rejected (ErrorObject "Rate limited by upstream")))
      claudeConfig 0 {| tools := []; trace := [] |}
    = (Normal o, s')
    /\ PollOutcome.status o = degraded.
Proof.
  destruct (X5_exhausted_verdict_by_message
              (steadyWorld (Rejected (ErrorObject "Rate limited by upstream")))
              claudeConfig {| tools := []; trace := [] |}
              (ErrorObject "Rate limited by upstream")
              (ErrorObject "Rate limited by upstream")
              (ErrorObject "Rate limited by upstream")
              eq_refl eq_refl eq_refl)
    as (o & s' & Hrun & _ & Hiff).
  exists o, s'. split; [exact Hrun|].
  apply Hiff. repeat split. left. reflexivity.
Defined.

(** ** The resources of a sweep *)

Lemma paceView_prefix_nil (evs l : list Event) :
  evs `prefix_of` l -> paceView l = [] -> paceView evs = [].
Proof.
  intros [rest ->] H. rewrite paceView_app in H.
  apply app_eq_nil in H. tauto.
Qed.

(** The requests and waits of one turn, in any world: those of the poll,
    then the pacing delay unless the body of the turn threw. *)
Lemma turn_pace (w : World) i config s :
  storeOk (tools s) -> toolConfigs !! i = Some config ->
  exists k new,
    k <= MAX_RETRIES
    /\ trace (snd (iteration w i config s)) = trace s ++ new
    /\ (paceView new = retrySchedule (ToolConfig.statusUrl config) k ++ pacingEvents i
        \/ paceView new = retrySchedule (ToolConfig.statusUrl config) k).
Proof.
  intros Hok Hi.
  destruct (iteration_run w i config s i (storeOk_index _ _ _ Hok Hi))
    as (k & outcome & evs & Hk & _ & Hpre & Hcases).
  cbv zeta in Hcases.
  pose proof (paceView_prefix_nil _ _ Hpre (paceView_reportEvents _ _ _)) as Hevs.
  exists k. destruct Hcases as [(_ & _ & Hit) | (e & date & _ & Hit)];
    rewrite Hit; cbn [snd trace]; eexists; (split; [exact Hk|]);
    (split; [rewrite <- !app_assoc; reflexivity|]).
  - left. rewrite !paceView_app, paceView_retrySchedule, Hevs.
    unfold pacingEvents. destruct (i <? _)%nat; reflexivity.
  - right. rewrite !paceView_app, paceView_retrySchedule, Hevs.
    cbn. rewrite app_nil_r. reflexivity.
Qed.

Lemma fetchCount_app evs1 evs2 :
  fetchCount (evs1 ++ evs2) = fetchCount evs1 + fetchCount evs2.
Proof. unfold fetchCount. rewrite List.filter_app. apply length_app. Qed.

Lemma totalDelay_app evs1 evs2 :
  totalDelay (evs1 ++ evs2) = (totalDelay evs1 + totalDelay evs2)%Z.
Proof.
  induction evs1 as [|ev evs1 IH]; [reflexivity|].
  destruct ev; cbn [app totalDelay]; rewrite IH; lia.
Qed.

Lemma fetchCount_paceView evs : fetchCount (paceView evs) = fetchCount evs.
Proof.
  induction evs as [|ev evs IH]; [reflexivity|].
  unfold fetchCount, paceView in *. destruct ev; simpl; rewrite ?IH; reflexivity.
Qed.

Lemma totalDelay_paceView evs : totalDelay (paceView evs) = totalDelay evs.
Proof.
  induction evs as [|ev evs IH]; [reflexivity|].
  unfold paceView in *. destruct ev; simpl; rewrite ?IH; reflexivity.
Qed.

Lemma retrySchedule_cost url k :
  k <= MAX_RETRIES ->
  fetchCount (retrySchedule url k) = S k
  /\ (0 <= totalDelay (retrySchedule url k) <= 3000)%Z.
Proof.
  unfold MAX_RETRIES. intros Hk.
  destruct k as [|[|[|k]]]; [| | |lia]; cbn; split; (reflexivity || lia).
Qed.

Lemma turn_cost (w : World) i config s :
  storeOk (tools s) -> toolConfigs !! i = Some config ->
  exists new,
    trace (snd (iteration w i config s)) = trace s ++ new
    /\ 1 <= fetchCount new <= 3
    /\ (0 <= totalDelay new <= 3000 + totalDelay (pacingEvents i))%Z.
Proof.
  intros Hok Hi.
  destruct (turn_pace w i config s Hok Hi) as (k & new & Hk & Htr & Hpace).
  exists new. split; [exact Htr|].
  destruct (retrySchedule_cost (ToolConfig.statusUrl config) k Hk) as [Hf Hd].
  rewrite <- (fetchCount_paceView new), <- (totalDelay_paceView new).
  assert (Hp : fetchCount (pacingEvents i) = 0
               /\ (0 <= totalDelay (pacingEvents i))%Z).
  { unfold pacingEvents, CHECK_DELAY_MS.
    destruct (i <? _)%nat; cbn; split; (reflexivity || lia). }
  unfold MAX_RETRIES in Hk.
  destruct Hpace as [-> | ->]; rewrite ?fetchCount_app, ?totalDelay_app, Hf; lia.
Qed.

(** X6: a sweep makes between 3 and 9 requests and spends at most
    13000 ms in backoff and pacing delays, in any world; with requests
    that last at most [REQUEST_TIMEOUT_MS] each, this stays below
    [CHECK_INTERVAL_MS], the period of the sweeps. *)
Theorem X6_sweep_resources (w : World) (s : State) :
  storeOk (tools s) ->
  exists new,
    trace (snd (checkAllToolsStatus w s)) = trace s ++ new
    /\ 3 <= fetchCount new <= 9
    /\ (0 <= totalDelay new <= 13000)%Z
    /\ (Z.of_nat (fetchCount new) * REQUEST_TIMEOUT_MS + totalDelay new
        < CHECK_INTERVAL_MS)%Z.
Proof.
  intros Hok. rewrite checkAllToolsStatus_run by exact Hok. cbn [snd].
  change (length toolConfigs) with 3.
  destruct (turn_cost w 0 chatgptConfig (afterTurns w 0 s)
              (afterTurns_storeOk w 0 s Hok) eq_refl) as (new0 & Ht0 & Hf0 & Hd0).
  destruct (turn_cost w 1 claudeConfig (afterTurns w 1 s)
              (afterTurns_storeOk w 1 s Hok) eq_refl) as (new1 & Ht1 & Hf1 & Hd1).
  destruct (turn_cost w 2 cursorConfig (afterTurns w 2 s)
              (afterTurns_storeOk w 2 s Hok) eq_refl) as (new2 & Ht2 & Hf2 & Hd2).
  rewrite <- (afterTurns_S w 0 chatgptConfig s eq_refl) in Ht0.
  rewrite <- (afterTurns_S w 1 claudeConfig s eq_refl) in Ht1.
  rewrite <- (afterTurns_S w 2 cursorConfig s eq_refl) in Ht2.
  change (totalDelay (pacingEvents 0)) with 2000%Z in Hd0.
  change (totalDelay (pacingEvents 1)) with 2000%Z in Hd1.
  change (totalDelay (pacingEvents 2)) with 0%Z in Hd2.
  exists (new0 ++ new1 ++ new2).
  split; [rewrite Ht2, Ht1, Ht0, <- !app_assoc; reflexivity|].
  rewrite !fetchCount_app, !totalDelay_app.
  unfold REQUEST_TIMEOUT_MS, CHECK_INTERVAL_MS. lia.
Qed.

Lemma X6_sweep_resources_witness :
  exists new,
    trace (snd (checkAllToolsStatus throwWorld (initialState throwWorld))) = new
    /\ 3 <= fetchCount new <= 9.
Proof.
  destruct (X6_sweep_resources throwWorld (initialState throwWorld)
              (storeOk_initialTools throwWorld)) as (new & Htr & Hf & _).
  exists new. split; [exact Htr|exact Hf].
Defined.

(** ** Identifiers and display names *)

Lemma registryOk_storeOk l : registryOk l -> storeOk l.
Proof.
  unfold registryOk, storeOk. intros H.
  apply (f_equal (List.map fst)) in H.
  rewrite !List.map_map in H. exact H.
Qed.

Lemma registryOk_lookup l i config :
  registryOk l -> toolConfigs !! i = Some config ->
  exists t, l !! i = Some t
            /\ ToolStatus.id t = ToolConfig.id config
            /\ ToolStatus.name t = ToolConfig.name config.
Proof.
  intros Hok Hi.
  assert (H : (fun t => (ToolStatus.id t, ToolStatus.name t)) <$> l !! i
              = Some (ToolConfig.id config, ToolConfig.name config)).
  { rewrite <- list_lookup_fmap.
    change (List.map (fun t => (ToolStatus.id t, ToolStatus.name t)) l !! i = 
            Some (ToolConfig.id config, ToolConfig.name config)).
    rewrite Hok.
    change ((fun c => (ToolConfig.id c, ToolConfig.name c)) <$> toolConfigs) with
      (List.map (fun c => (ToolConfig.id c, ToolConfig.name c)) toolConfigs).
    destruct i as [|[|[|i]]]; simpl in Hi; try discriminate;
      injection Hi as <-; reflexivity. }
  destruct (l !! i) as [t|]; [|discriminate H].
  injection H as Hid Hname. exists t. repeat split; assumption.
Qed.

Lemma registryOk_insert (l : list ToolStatus.t) n t u :
  l !! n = Some t ->
  ToolStatus.id u = ToolStatus.id t -> ToolStatus.name u = ToolStatus.name t ->
  registryOk l -> registryOk (<[n := u]> l).
Proof.
  intros Hl Hid Hname Hok. unfold registryOk. rewrite <- Hok.
  change ((fun t => (ToolStatus.id t, ToolStatus.name t)) <$> <[n := u]> l
          = (fun t => (ToolStatus.id t, ToolStatus.name t)) <$> l).
  rewrite list_fmap_insert, Hid, Hname.
  apply list_insert_id. rewrite list_lookup_fmap, Hl. reflexivity.
Qed.

Lemma turn_registryOk (w : World) i config s :
  registryOk (tools s) -> toolConfigs !! i = Some config ->
  registryOk (tools (snd (iteration w i config s))).
Proof.
  intros Hok Hi.
  destruct (turn_run w i config s (registryOk_storeOk _ Hok) Hi)
    as (k & outcome & record & new & _ & _ & Hit & Hrec & _).
  destruct (registryOk_lookup _ _ _ Hok Hi) as (t & Ht & Hid & Hname).
  rewrite Hit. cbn [snd tools].
  apply (registryOk_insert _ _ t); [exact Ht| | |exact Hok];
    destruct (fst (tryBlock w i config _ s));
    first [subst record | destruct Hrec as [date ->]];
    cbn; congruence.
Qed.

Lemma afterTurns_registryOk (w : World) n s :
  registryOk (tools s) -> registryOk (tools (afterTurns w n s)).
Proof.
  intros Hok. induction n as [|n IH]; simpl; [exact Hok|].
  destruct (toolConfigs !! n) as [config|] eqn:Hn; [|exact IH].
  apply turn_registryOk; assumption.
Qed.

Lemma sweep_registryOk (w : World) s :
  registryOk (tools s) -> registryOk (tools (snd (checkAllToolsStatus w s))).
Proof.
  intros Hok. rewrite checkAllToolsStatus_run by (apply registryOk_storeOk; exact Hok).
  apply afterTurns_registryOk. exact Hok.
Qed.

Lemma afterSweeps_registryOk (w : World) n : registryOk (tools (afterSweeps w n)).
Proof.
  induction n as [|n IH]; [reflexivity|].
  simpl afterSweeps. apply sweep_registryOk. exact IH.
Qed.

(** X7: the identifier and the display name of every record are those of
    the registry entry at its index, from the start of the process and
    after every turn and every sweep, whatever the polls return and
    whether or not a turn throws. *)
Theorem X7_names_follow_registry (w : World) :
  registryOk (initialTools w)
  /\ (forall i config s,
        registryOk (tools s) -> toolConfigs !! i = Some config ->
        registryOk (tools (snd (iteration w i config s))))
  /\ (forall s, registryOk (tools s) ->
        registryOk (tools (snd (checkAllToolsStatus w s))))
  /\ (forall n i config,
        toolConfigs !! i = Some config ->
        exists t, tools (afterSweeps w n) !! i = Some t
                  /\ ToolStatus.id t = ToolConfig.id config
                  /\ ToolStatus.name t = ToolConfig.name config).
Proof.
  split; [reflexivity|]. split; [|split].
  - intros i config s. apply turn_registryOk.
  - apply sweep_registryOk.
  - intros n i config Hi.
    exact (registryOk_lookup _ _ _ (afterSweeps_registryOk w n) Hi).
Qed.

(** ** The query surface *)

Lemma ToolId_toString_inj a b : ToolId_toString a = ToolId_toString b -> a = b.
Proof. destruct a, b; simpl; intros H; (reflexivity || discriminate H). Qed.

Lemma storeOk_three l :
  storeOk l ->
  exists a b c,
    l = [a; b; c]
    /\ ToolStatus.id a = chatgpt /\ ToolStatus.id b = claude
    /\ ToolStatus.id c = cursor.
Proof.
  unfold storeOk. simpl. intros H.
  destruct l as [|a [|b [|c [|d l]]]]; simpl in H; try discriminate H.
  injection H as Ha Hb Hc. exists a, b, c. repeat split; assumption.
Qed.

(** On a well-formed store, the record found for a registry identifier
    is the record at the index of that target. *)
Lemma find_registry_id l i config :
  storeOk l -> toolConfigs !! i = Some config ->
  List.find (fun t => String.eqb (ToolId_toString (ToolStatus.id t))
                        (ToolId_toString (ToolConfig.id config))) l
  = l !! i.
Proof.
  intros Hok Hi.
  destruct (storeOk_three l Hok) as (a & b & c & -> & Ha & Hb & Hc).
  destruct i as [|[|[|i]]]; simpl in Hi; try discriminate;
    injection Hi as <-; simpl; rewrite ?Ha, ?Hb, ?Hc; reflexivity.
Qed.

(** X9: on a store that holds the registry targets, [GET /tools/:id]
    with the identifier of a target replies 200 with the record kept at
    the index of that target, which carries that identifier and the
    display name of the target, and logs the retrieval. *)
Theorem X9_tool_by_registry_id (l : list ToolStatus.t) (i : nat)
    (config : ToolConfig.t) (calls : list Http.Call) :
  registryOk l ->
  toolConfigs !! i = Some config ->
  exists t,
    l !! i = Some t
    /\ ToolStatus.id t = ToolConfig.id config
    /\ ToolStatus.name t = ToolConfig.name config
    /\ Http.toolByIdRoute l (ToolId_toString (ToolConfig.id config)) calls
       = (Http.Replied {| Http.code := 200; Http.body := Http.ToolBody t |},
          calls ++ [Http.LogToolRetrieved (ToolStatus.id t) (ToolStatus.name t)
                      (ToolStatus.status t) (ToolStatus.latencyMs t)]).
Proof.
  intros Hok Hi.
  destruct (registryOk_lookup _ _ _ Hok Hi) as (t & Ht & Hid & Hname).
  exists t. split; [exact Ht|]. split; [exact Hid|]. split; [exact Hname|].
  unfold Http.toolByIdRoute.
  rewrite (find_registry_id l i config (registryOk_storeOk _ Hok) Hi), Ht.
  reflexivity.
Qed.

Lemma X9_tool_by_registry_id_witness :
  exists t,
    Http.toolByIdRoute (initialTools throwWorld) "claude" []
    = (Http.Replied {| Http.code := 200; Http.body := Http.ToolBody t |},
       [Http.LogToolRetrieved claude "Claude" unknown None]).
Proof.
  destruct (X9_tool_by_registry_id (initialTools throwWorld) 1 claudeConfig []
              eq_refl eq_refl) as (t & Ht & _ & _ & Hroute).
  exists t. cbv in Ht. injection Ht as <-. exact Hroute.
Defined.

(** X10: [GET /tools/:id] never throws and makes one console call. It
    replies 404 with "Tool not found" exactly when no record of the
    store has the requested identifier, and otherwise 200 with a record
    of the store that has it. An identifier other than [cursor],
    [chatgpt] and [claude] is answered 404 whatever the store holds. *)
Theorem X10_tool_by_id_found_or_404 (l : list ToolStatus.t) (id : string)
    (calls : list Http.Call) :
  exists r c,
    Http.toolByIdRoute l id calls = (Http.Replied r, calls ++ [c])
    /\ ((Http.code r = 404%Z
         /\ Http.body r = Http.ErrorBody "Tool not found" None
         /\ c = Http.WarnToolNotFound id
         /\ forall t, In t l -> ToolId_toString (ToolStatus.id t) <> id)
        \/ (Http.code r = 200%Z
            /\ exists t, Http.body r = Http.ToolBody t
                         /\ In t l /\ ToolId_toString (ToolStatus.id t) = id))
    /\ (id <> "cursor" -> id <> "chatgpt" -> id <> "claude" -> Http.code r = 404%Z).
Proof.
  unfold Http.toolByIdRoute.
  destruct (List.find _ l) as [t|] eqn:Hfind.
  - apply find_some in Hfind as [Hin Heq]. apply String.eqb_eq in Heq.
    eexists _, _. split; [reflexivity|]. split.
    + right. split; [reflexivity|]. exists t. repeat split; assumption.
    + intros H1 H2 H3. exfalso. destruct (ToolStatus.id t); simpl in Heq; congruence.
  - eexists _, _. split; [reflexivity|]. split; [|reflexivity].
    left. repeat split. intros t Hin Heq.
    pose proof (find_none _ _ Hfind t Hin) as Hf. cbv beta in Hf.
    apply String.eqb_neq in Hf. contradiction.
Qed.

Lemma countStatus_partition l :
  Http.countStatus healthy l + Http.countStatus degraded l
  + Http.countStatus down l + Http.countStatus unknown l
  = length l.
Proof.
  unfold Http.countStatus. induction l as [|t l IH]; [reflexivity|].
  cbn [List.filter]. destruct (ToolStatus.status t); cbn; lia.
Qed.

(** X11: [GET /tools] counts each record once: the healthy, degraded and
    down counts and the number of unknown records add up to the size of
    the store. When the three metric calls return, the reply is 200 with
    the whole store, unchanged and in order, after the three metrics and
    one log line carrying those counts; when one of them throws, nothing
    is logged and the store is not sent. *)
Theorem X11_tools_route_counts (env : Http.Env) (l : list ToolStatus.t)
    (calls : list Http.Call) :
  let h := Http.countStatus healthy l in
  let d := Http.countStatus degraded l in
  let n := Http.countStatus down l in
  let metrics := [Http.RecordMetric "Custom/Tools/Healthy" h;
                  Http.RecordMetric "Custom/Tools/Degraded" d;
                  Http.RecordMetric "Custom/Tools/Down" n] in
  h + d + n + Http.countStatus unknown l = length l
  /\ match Http.toolsRoute env l calls with
     | (Http.Replied r, calls') =>
         r = {| Http.code := 200; Http.body := Http.ToolsBody l |}
         /\ calls' = calls ++ metrics ++ [Http.LogToolsRetrieved h d n (length l)]
     | (Http.Raise e, calls') =>
         exists sent,
           calls' = calls ++ sent
           /\ sent `prefix_of` metrics
           /\ sent <> []
           /\ Http.agentThrows env calls' = Some e
     end.
Proof.
  cbv zeta. split; [apply countStatus_partition|].
  unfold Http.toolsRoute, Http.agentCall, Http.say, Http.sendJson,
    mbind, Http.H_bind, mret, Http.H_ret.
  destruct (Http.agentThrows env (calls ++ [_])) as [e|] eqn:H1.
  { eexists [_]. repeat split; [eexists; reflexivity|discriminate|exact H1]. }
  destruct (Http.agentThrows env ((calls ++ [_]) ++ [_])) as [e|] eqn:H2.
  { eexists [_; _]. rewrite <- app_assoc.
    repeat split; [eexists; reflexivity|discriminate|].
    rewrite <- app_assoc in H2. exact H2. }
  destruct (Http.agentThrows env (((calls ++ [_]) ++ [_]) ++ [_])) as [e|] eqn:H3.
  { eexists [_; _; _]. rewrite <- !app_assoc.
    repeat split; [eexists []; reflexivity|discriminate|].
    rewrite <- !app_assoc in H3. exact H3. }
  split; [reflexivity|]. rewrite <- !app_assoc. reflexivity.
Qed.

(** X12: after any number of sweeps, in any world, [GET /tools/:id]
    with the identifier of a registry target is never answered 404: it
    replies 200 with a record that carries the identifier and the
    display name of that target. *)
Theorem X12_targets_always_served (w : World) (n : nat) (config : ToolConfig.t)
    (calls : list Http.Call) :
  In config toolConfigs ->
  exists t c,
    Http.toolByIdRoute (tools (afterSweeps w n))
      (ToolId_toString (ToolConfig.id config)) calls
    = (Http.Replied {| Http.code := 200; Http.body := Http.ToolBody t |}, calls ++ [c])
    /\ ToolStatus.id t = ToolConfig.id config
    /\ ToolStatus.name t = ToolConfig.name config.
Proof.
  intros Hin. apply list_elem_of_In, list_elem_of_lookup in Hin as [i Hi].
  destruct (registryOk_lookup _ _ _ (afterSweeps_registryOk w n) Hi)
    as (t & Ht & Hid & Hname).
  exists t. eexists. split; [|split; assumption].
  unfold Http.toolByIdRoute.
  rewrite (find_registry_id _ i config
             (registryOk_storeOk _ (afterSweeps_registryOk w n)) Hi), Ht.
  reflexivity.
Qed.

Lemma X12_targets_always_served_witness :
  exists t c,
    Http.toolByIdRoute (tools (afterSweeps throwWorld 1)) "claude" []
    = (Http.Replied {| Http.code := 200; Http.body := Http.ToolBody t |}, [c])
    /\ ToolStatus.name t = "Claude".
Proof.
  destruct (X12_targets_always_served throwWorld 1 claudeConfig []
              ltac:(right; left; reflexivity)) as (t & c & Hroute & _ & Hname).
  exists t, c. split; [exact Hroute|exact Hname].
Defined.

(** X13: [GET /test-error] never replies with a success. Behind the
    error middleware the reply is 500 "Internal server error", and the
    message of the error is sent only when [NODE_ENV] is [development];
    the only other way out is an exception of the telemetry agent. When
    the agent does not throw, the simulated error is reported to it
    twice, by the route and by the middleware, then logged. There is one
    exception: when [type] is [tool-error] and [tool] has no conversion
    to a string, the route throws a [TypeError] before its own report,
    and the agent hears of that error once, from the middleware. This
    happens only then. The error is the generic one unless [type] is
    exactly [tool-error], [timeout] or [validation]: so for an absent,
    empty, repeated or bracketed [type]. *)
Theorem X13_test_error_is_500 (env : Http.Env)
    (type tool : option Http.QueryValue) (calls : list Http.Call) :
  let errorType := Http.queryOr type "generic" in
  let toolName := Http.queryOr tool "unknown" in
  let exposed (err : Http.Raised) :=
    match Http.nodeEnv env with
    | Some mode => if String.eqb mode "development" then Http.raisedMessage err else None
    | None => None
    end in
  let byMiddleware (err : Http.Raised) :=
    [Http.NoticeRouteError err (Http.path env) (Http.method env)
       (Http.orFiveHundred (Http.statusCode env));
     Http.LogErrorOccurred err (Http.path env) (Http.method env)
       (Http.orFiveHundred (Http.statusCode env))] in
  match Http.served env (Http.testErrorRoute env type tool) calls with
  | (Http.Replied r, _) =>
      Http.code r = 500%Z
      /\ exists err, Http.body r = Http.ErrorBody "Internal server error" (exposed err)
  | (Http.Raise e, calls') => Http.agentThrows env calls' = Some e
  end
  /\ ((forall h, Http.agentThrows env h = None) ->
      Http.served env (Http.testErrorRoute env type tool) calls
      = match Http.simulatedError errorType toolName with
        | Http.Replied error =>
            (Http.Replied {| Http.code := 500;
                             Http.body := Http.ErrorBody "Internal server error"
                                            (exposed error) |},
             calls ++ Http.NoticeTestError error errorType toolName
                      :: byMiddleware error)
        | Http.Raise e =>
            (Http.Replied {| Http.code := 500;
                             Http.body := Http.ErrorBody "Internal server error"
                                            (exposed e) |},
             calls ++ byMiddleware e)
        end)
  /\ (forall e, Http.simulatedError errorType toolName = Http.Raise e
                <-> e = Http.typeError
                    /\ type = Some (Http.QText "tool-error")
                    /\ Http.render toolName = None)
  /\ (forall text, type = Some (Http.QText "tool-error") ->
                   Http.render toolName = Some text ->
                   Http.simulatedError errorType toolName
                   = Http.Replied
                       (Http.newError "ToolMonitoringError"
                          ("Simulated tool monitoring error: " +:+ text)))
  /\ ((forall s, In s ["tool-error"; "timeout"; "validation"] ->
                 type <> Some (Http.QText s)) ->
      Http.simulatedError errorType toolName
      = Http.Replied (Http.newError "GenericError" "Simulated generic error")).
Proof.
  cbv zeta. split; [|split; [|split; [|split]]].
  - unfold Http.served, Http.testErrorRoute, Http.errorMiddleware, Http.agentCall,
      Http.say, Http.raise, Http.pure, Http.sendStatusJson, mbind, Http.H_bind,
      mret, Http.H_ret.
    destruct (Http.simulatedError _ _) as [error|e].
    + destruct (Http.agentThrows env (calls ++ [_])) as [e|] eqn:H1.
      * destruct (Http.agentThrows env ((calls ++ [_]) ++ [_])) as [e'|] eqn:H2;
          [exact H2|]. split; [reflexivity|]. eexists. reflexivity.
      * destruct (Http.agentThrows env ((calls ++ [_]) ++ [_])) as [e'|] eqn:H2;
          [exact H2|]. split; [reflexivity|]. eexists. reflexivity.
    + destruct (Http.agentThrows env (calls ++ [_])) as [e'|] eqn:H1;
        [exact H1|]. split; [reflexivity|]. eexists. reflexivity.
  - intros Hq.
    unfold Http.served, Http.testErrorRoute, Http.errorMiddleware, Http.agentCall,
      Http.say, Http.raise, Http.pure, Http.sendStatusJson, mbind, Http.H_bind,
      mret, Http.H_ret.
    destruct (Http.simulatedError _ _) as [error|e];
      rewrite !Hq; rewrite <- !app_assoc; reflexivity.
  - intros e. unfold Http.queryOr at 1.
    destruct type as [[s|items|members]|]; cbn [Http.simulatedError].
    + destruct (String.eqb s "") eqn:Es.
      * cbn. split; [discriminate|]. intros (_ & Hty & _).
        injection Hty as ->. discriminate Es.
      * cbn [Http.simulatedError].
        destruct (String.eqb s "tool-error") eqn:Et.
        -- apply String.eqb_eq in Et as ->.
           destruct (Http.render _) as [text|] eqn:Hr.
           ++ split; [discriminate|]. intros (_ & _ & H). discriminate H.
           ++ split.
              ** intros H. injection H as <-. repeat split.
              ** intros (-> & _ & _). reflexivity.
        -- assert (Hty : Some (Http.QText s) <> Some (Http.QText "tool-error"))
             by (intros H; injection H as ->; discriminate Et).
           destruct (String.eqb s "timeout"); [|destruct (String.eqb s "validation")];
             (split; [discriminate|intros (_ & H & _); contradiction]).
    + split; [discriminate|]. intros (_ & H & _). discriminate H.
    + split; [discriminate|]. intros (_ & H & _). discriminate H.
    + cbn. split; [discriminate|]. intros (_ & H & _). discriminate H.
  - intros text -> Hr. cbn [Http.queryOr String.eqb Ascii.eqb Bool.eqb] in *.
    cbn [Http.simulatedError String.eqb Ascii.eqb Bool.eqb]. rewrite Hr. reflexivity.
  - intros Hne. unfold Http.queryOr at 1.
    destruct type as [[s|items|members]|]; [|reflexivity|reflexivity|reflexivity].
    destruct (String.eqb s "") eqn:Es; [reflexivity|].
    unfold Http.simulatedError.
    assert (Hs : forall k, In k ["tool-error"; "timeout"; "validation"] ->
                           String.eqb s k = false).
    { intros k Hk. apply String.eqb_neq. intros ->. exact (Hne k Hk eq_refl). }
    rewrite !Hs by (simpl; tauto). reflexivity.
Qed.

(** [GET /test-error?type=tool-error&tool[toString]=x]: the reply is 500
    and the agent hears of the [TypeError] once, from the middleware. *)
Lemma X13_test_error_is_500_witness :
  Http.served quietEnv
    (Http.testErrorRoute quietEnv (Some (Http.QText "tool-error"))
       (Some (Http.QObj [("toString", Http.QText "x")]))) []
  = (Http.Replied {| Http.code := 500;
                     Http.body := Http.ErrorBody "Internal server error" None |},
     [Http.NoticeRouteError Http.typeError "/test-error" "GET" 200;
      Http.LogErrorOccurred Http.typeError "/test-error" "GET" 200]).
Proof.
  destruct (X13_test_error_is_500 quietEnv (Some (Http.QText "tool-error"))
              (Some (Http.QObj [("toString", Http.QText "x")])) [])
    as (_ & Hquiet & _).
  exact (Hquiet (fun _ => eq_refl)).
Defined.

(** ** Sweeps over operational status pages *)

Section Operational.

Context (w : World).

Hypothesis quiet : forall h, newrelic w h = None.

Hypothesis operational :
  forall h, exists response latencyMs data,
    fetch w h = Completed response latencyMs
    /\ ok response = true
    /\ resp_json response = Some data /\ data <> JNull
    /\ indicatorOf data = Some (JStr "none")
    /\ (latencyMs <= 2000)%Z.

Lemma turn_operational i config s :
  storeOk (tools s) -> toolConfigs !! i = Some config ->
  exists latencyMs date,
    (latencyMs <= 2000)%Z
    /\ let record :=
         ToolStatus.mk (ToolConfig.id config) (ToolConfig.name config) healthy date
           (Some latencyMs) None in
       iteration w i config s
       = (Normal tt,
          {| tools := <[i := record]> (tools s);
             trace := trace s
                      ++ [Fetch (ToolConfig.statusUrl config);
                          StoreSet i record;
                          RecordCustomEvent (ToolConfig.id config)
                            (ToolConfig.name config) healthy latencyMs false]
                      ++ pacingEvents i |}).
Proof.
  intros Hok Hi.
  destruct (turn_quiet w quiet i config s Hok Hi)
    as (k & outcome & _ & Hrun & Hnormal & _).
  cbv zeta in Hrun, Hnormal.
  destruct (operational (trace s ++ [Fetch (ToolConfig.statusUrl config)]))
    as (r & l & data & Hf & Hrok & Hjson & Hnull & Hind & Hl).
  rewrite checkToolStatus_step, Hf in Hrun. injection Hrun as Ho Htr.
  rewrite <- Htr in Hnormal. subst outcome.
  rewrite (onResponse_parsed r l data Hrok Hjson Hnull), Hind in Hnormal.
  cbn [String.eqb Ascii.eqb Bool.eqb] in Hnormal.
  assert (Hv : latencyVerdict l = healthy)
    by (unfold latencyVerdict; apply Z.leb_le in Hl; rewrite Hl; reflexivity).
  rewrite Hv in Hnormal.
  pose proof (Hnormal eq_refl) as Hit.
  exists l, (now w (trace s ++ [Fetch (ToolConfig.statusUrl config)])).
  split; [exact Hl|]. cbv zeta. rewrite Hit. cbn. rewrite <- !app_assoc.
  reflexivity.
Qed.

Lemma sweep_operational s :
  storeOk (tools s) ->
  let final := snd (checkAllToolsStatus w s) in
  Forall (fun t => ToolStatus.status t = healthy
                   /\ ToolStatus.error t = None
                   /\ exists latencyMs,
                        ToolStatus.latencyMs t = Some latencyMs
                        /\ (latencyMs <= 2000)%Z)
    (tools final)
  /\ exists new,
       trace final = trace s ++ new
       /\ List.filter isLogOrIncident new = []
       /\ paceView new
          = [Fetch (urlOf 0); Delay CHECK_DELAY_MS;
             Fetch (urlOf 1); Delay CHECK_DELAY_MS;
             Fetch (urlOf 2)].
Proof.
  intros Hok. cbv zeta. rewrite checkAllToolsStatus_run by exact Hok. cbn [snd].
  change (length toolConfigs) with 3.
  destruct (turn_operational 0 chatgptConfig (afterTurns w 0 s)
              (afterTurns_storeOk w 0 s Hok) eq_refl) as (l0 & d0 & Hl0 & H0).
  destruct (turn_operational 1 claudeConfig (afterTurns w 1 s)
              (afterTurns_storeOk w 1 s Hok) eq_refl) as (l1 & d1 & Hl1 & H1).
  destruct (turn_operational 2 cursorConfig (afterTurns w 2 s)
              (afterTurns_storeOk w 2 s Hok) eq_refl) as (l2 & d2 & Hl2 & H2).
  cbv zeta in H0, H1, H2.
  apply (f_equal snd) in H0, H1, H2.
  rewrite <- (afterTurns_S w 0 chatgptConfig s eq_refl) in H0.
  rewrite <- (afterTurns_S w 1 claudeConfig s eq_refl) in H1.
  rewrite <- (afterTurns_S w 2 cursorConfig s eq_refl) in H2.
  cbn [snd] in H0, H1, H2. change (afterTurns w 0 s) with s in H0.
  rewrite H2, H1, H0. cbn [tools trace].
  destruct (storeOk_three _ Hok) as (a & b & c & -> & _).
  split.
  - cbn. repeat constructor; eexists; split; (reflexivity || assumption).
  - eexists. split; [rewrite <- !app_assoc; reflexivity|].
    split; reflexivity.
Qed.

End Operational.

(** X8: when every status page answers 2xx with indicator [none]
    within 2000 ms and the telemetry agent does not throw, a sweep
    leaves every record healthy, without diagnostic and with a latency
    of at most 2000 ms, whatever the records were before; it writes no
    error log and no incident report, and makes exactly three requests
    with the pacing delay between them. *)
Theorem X8_operational_sweep_is_quiet (w : World) (s : State) :
  (forall h, newrelic w h = None) ->
  (forall h, exists response latencyMs data,
      fetch w h = Completed response latencyMs
      /\ ok response = true
      /\ resp_json response = Some data /\ data <> JNull
      /\ indicatorOf data = Some (JStr "none")
      /\ (latencyMs <= 2000)%Z) ->
  storeOk (tools s) ->
  let final := snd (checkAllToolsStatus w s) in
  Forall (fun t => ToolStatus.status t = healthy
                   /\ ToolStatus.error t = None
                   /\ exists latencyMs,
                        ToolStatus.latencyMs t = Some latencyMs
                        /\ (latencyMs <= 2000)%Z)
    (tools final)
  /\ exists new,
       trace final = trace s ++ new
       /\ List.filter isLogOrIncident new = []
       /\ paceView new
          = [Fetch (urlOf 0); Delay CHECK_DELAY_MS;
             Fetch (urlOf 1); Delay CHECK_DELAY_MS;
             Fetch (urlOf 2)].
Proof. intros Hq Hop Hok. exact (sweep_operational w Hq Hop s Hok). Qed.

Lemma X8_operational_sweep_is_quiet_witness :
  Forall (fun t => ToolStatus.status t = healthy
                   /\ ToolStatus.error t = None
                   /\ exists latencyMs,
                        ToolStatus.latencyMs t = Some latencyMs
                        /\ (latencyMs <= 2000)%Z)
    (tools (snd (checkAllToolsStatus
                   (steadyWorld (respond 200 (Some (statusPage "none" "All Systems Operational")) 500))
                   (afterSweeps outageWorld 1)))).
Proof.
  apply (X8_operational_sweep_is_quiet
           (steadyWorld (respond 200 (Some (statusPage "none" "All Systems Operational")) 500))
           (afterSweeps outageWorld 1)).
  - intros h. reflexivity.
  - intros h. exists {| resp_status := 200;
                        resp_json := Some (statusPage "none" "All Systems Operational") |},
      500%Z, (statusPage "none" "All Systems Operational").
    repeat split; try reflexivity; try discriminate.
  - vm_compute. reflexivity.
Defined.

(** ** The simulated monitor *)

Section DemoFacts.

Context (w : Demo.World).

Lemma D_bind_normal {A B} (m : Demo.D A) (k : A -> Demo.D B) r a r' :
  m r = (Normal a, r') -> mbind (M := Demo.D) (MBind := Demo.D_bind) k m r = k a r'.
Proof. intros H. unfold mbind, Demo.D_bind. rewrite H. reflexivity. Qed.

Lemma D_bind_throw {A B} (m : Demo.D A) (k : A -> Demo.D B) r e r' :
  m r = (Throw e, r') ->
  mbind (M := Demo.D) (MBind := Demo.D_bind) k m r = (Throw e, r').
Proof. intros H. unfold mbind, Demo.D_bind. rewrite H. reflexivity. Qed.

Lemma drawLatency_run v r :
  exists latency r',
    Demo.drawLatency w v r = (Normal latency, r')
    /\ Demo.trace r' = Demo.trace r
    /\ match v with
       | down => latency = None
       | _ => exists l, latency = Some l
       end.
Proof.
  unfold Demo.drawLatency, Demo.draw, mbind, Demo.D_bind, mret, Demo.D_ret.
  destruct v; cbn [Verdict_eqb]; eexists _, _;
    (split; [reflexivity|]); (split; [reflexivity|]);
    first [reflexivity | eexists; reflexivity].
Qed.

Lemma logChange_run t u r :
  exists c r',
    Demo.logChange w t u r = (c, r')
    /\ ((forall h, Demo.agentThrows w h = None) ->
        c = Normal tt
        /\ Demo.trace r' = Demo.trace r ++ Demo.changeEvents t u).
Proof.
  unfold Demo.logChange, Demo.changeEvents, Demo.agentCall, Demo.say,
    mbind, Demo.D_bind, mret, Demo.D_ret.
  destruct (Verdict_eqb (Demo.ToolStatus.status t) (Demo.ToolStatus.status u));
    cbn [negb].
  - eexists _, _. split; [reflexivity|]. intros _.
    split; [reflexivity|]. rewrite app_nil_r. reflexivity.
  - destruct (Demo.ToolStatus.status u); cbn [Verdict_eqb Demo.trace Demo.draws];
      try (eexists _, _; split; [reflexivity|]; intros _;
           split; reflexivity).
    destruct (Demo.agentThrows w _) eqn:Ha; eexists _, _;
      (split; [reflexivity|]); intros Hq;
      [rewrite Hq in Ha; discriminate Ha|].
    split; [reflexivity|]. cbn. rewrite <- app_assoc. reflexivity.
Qed.

(** The record the simulation builds for [t] at run [r]. *)
Lemma randomizeOne_run t r :
  exists u c r',
    Demo.randomizeOne w t r = (c, r')
    /\ Demo.ToolStatus.id u = Demo.ToolStatus.id t
    /\ Demo.ToolStatus.name u = Demo.ToolStatus.name t
    /\ Demo.coherent u
    /\ (forall u', c = Normal u' -> u' = u)
    /\ ((forall h, Demo.agentThrows w h = None) ->
        c = Normal u
        /\ Demo.trace r'
           = Demo.trace r
             ++ [Demo.StatusUpdate (Demo.ToolStatus.id u) (Demo.ToolStatus.name u)
                   (Demo.ToolStatus.status u)
                   (default 0%Z (Demo.ToolStatus.latencyMs u))
                   (Demo.hasText (Demo.ToolStatus.error u))]
             ++ Demo.changeEvents t u).
Proof.
  unfold Demo.randomizeOne.
  set (v := Demo.statusAt (Demo.floorRandom w (Demo.draws r) 0 3)).
  set (r1 := {| Demo.trace := Demo.trace r; Demo.draws := S (Demo.draws r) |}).
  rewrite (D_bind_normal _ _ r (Demo.floorRandom w (Demo.draws r) 0 3) r1)
    by reflexivity.
  fold v.
  destruct (drawLatency_run v r1) as (latency & r2 & Hlat & Htr2 & Hshape).
  rewrite (D_bind_normal _ _ _ _ _ Hlat).
  rewrite (D_bind_normal _ _ r2 (Demo.now w (Demo.trace r2)) r2) by reflexivity.
  set (u := Demo.ToolStatus.mk (Demo.ToolStatus.id t) (Demo.ToolStatus.name t) v
              (Demo.now w (Demo.trace r2)) latency
              (if Verdict_eqb v down then Some "No response from service"
               else if Verdict_eqb v degraded then Some "Elevated latency"
               else None)).
  set (ev := Demo.StatusUpdate (Demo.ToolStatus.id u) (Demo.ToolStatus.name u)
               (Demo.ToolStatus.status u)
               (default 0%Z (Demo.ToolStatus.latencyMs u))
               (Demo.hasText (Demo.ToolStatus.error u))).
  set (r3 := {| Demo.trace := Demo.trace r2 ++ [ev]; Demo.draws := Demo.draws r2 |}).
  assert (Hcoh : Demo.coherent u).
  { unfold Demo.coherent, u. cbn [Demo.ToolStatus.status Demo.ToolStatus.latencyMs
                                   Demo.ToolStatus.error].
    destruct v; cbn [Verdict_eqb]; split; (exact Hshape || reflexivity). }
  destruct (Demo.agentThrows w (Demo.trace r2 ++ [ev])) as [e|] eqn:Hagent.
  - exists u, (Throw e), r3.
    split.
    { apply D_bind_throw. unfold Demo.agentCall. fold u. fold ev.
      rewrite Hagent. reflexivity. }
    split; [reflexivity|]. split; [reflexivity|]. split; [exact Hcoh|].
    split; [discriminate|]. intros Hq. rewrite Hq in Hagent. discriminate Hagent.
  - destruct (logChange_run t u r3) as (c & r4 & Hlog & Hquiet).
    assert (Hcall : Demo.agentCall w ev r2 = (Normal tt, r3))
      by (unfold Demo.agentCall; rewrite Hagent; reflexivity).
    destruct c as [[]|e].
    + exists u, (Normal u), r4. split.
      { rewrite (D_bind_normal _ _ _ _ _ Hcall), (D_bind_normal _ _ _ _ _ Hlog).
        reflexivity. }
      split; [reflexivity|]. split; [reflexivity|]. split; [exact Hcoh|].
      split; [intros u' Hu'; injection Hu' as <-; reflexivity|].
      intros Hq. split; [reflexivity|].
      destruct (Hquiet Hq) as [_ ->]. cbn [Demo.trace r3].
      rewrite Htr2, <- app_assoc. reflexivity.
    + exists u, (Throw e), r4. split.
      { rewrite (D_bind_normal _ _ _ _ _ Hcall), (D_bind_throw _ _ _ _ _ Hlog).
        reflexivity. }
      split; [reflexivity|]. split; [reflexivity|]. split; [exact Hcoh|].
      split; [discriminate|]. intros Hq.
      destruct (Hquiet Hq) as [Hc _]. discriminate Hc.
Qed.

End DemoFacts.

Lemma Verdict_eqb_eq a b : Verdict_eqb a b = true <-> a = b.
Proof. destruct a, b; simpl; split; intros H; (reflexivity || discriminate H). Qed.

Lemma changeEvents_nil t u :
  Demo.changeEvents t u = []
  <-> Demo.ToolStatus.status t = Demo.ToolStatus.status u.
Proof.
  unfold Demo.changeEvents. rewrite <- Verdict_eqb_eq.
  destruct (Verdict_eqb _ _); split; intros H; (reflexivity || discriminate H).
Qed.

Lemma filter_changeEvents t u :
  List.filter Demo.isChangeEvent (Demo.changeEvents t u) = Demo.changeEvents t u.
Proof.
  unfold Demo.changeEvents.
  destruct (Verdict_eqb _ _); [reflexivity|].
  destruct (Demo.ToolStatus.status u); reflexivity.
Qed.

Lemma statusUpdates_changeEvents t u :
  List.filter (fun ev => negb (Demo.isChangeEvent ev)) (Demo.changeEvents t u) = [].
Proof.
  unfold Demo.changeEvents.
  destruct (Verdict_eqb _ _); [reflexivity|].
  destruct (Demo.ToolStatus.status u); reflexivity.
Qed.

Section DemoPass.

Context (w : Demo.World).

(** What a pass keeps of a record, and what it makes sure of. *)
Let kept (t u : Demo.ToolStatus.t) : Prop :=
  Demo.ToolStatus.id u = Demo.ToolStatus.id t
  /\ Demo.ToolStatus.name u = Demo.ToolStatus.name t
  /\ Demo.coherent u.

Lemma mapTools_run l :
  forall r,
  exists c r',
    Demo.mapTools w l r = (c, r')
    /\ (forall updated, c = Normal updated -> Forall2 kept l updated)
    /\ ((forall h, Demo.agentThrows w h = None) ->
        exists updated new,
          c = Normal updated
          /\ Demo.trace r' = Demo.trace r ++ new
          /\ List.filter Demo.isChangeEvent new = Demo.changesBetween l updated
          /\ length (List.filter (fun ev => negb (Demo.isChangeEvent ev)) new)
             = length l).
Proof.
  induction l as [|t l IH]; intros r.
  - exists (Normal []), r. split; [reflexivity|]. split.
    + intros updated H. injection H as <-. constructor.
    + intros _. exists [], []. rewrite app_nil_r. repeat split.
  - destruct (randomizeOne_run w t r) as (u & c1 & r1 & Hone & Hid & Hname & Hcoh & Hu & Hq1).
    cbn [Demo.mapTools].
    destruct c1 as [u'|e].
    2:{ exists (Throw e), r1. split; [apply D_bind_throw; exact Hone|].
        split; [discriminate|]. intros Hq. destruct (Hq1 Hq) as [Hc _]. discriminate Hc. }
    pose proof (Hu u' eq_refl) as ->.
    destruct (IH r1) as (c2 & r2 & Hrest & Hkept & Hq2).
    rewrite (D_bind_normal _ _ _ _ _ Hone).
    destruct c2 as [updated|e].
    2:{ exists (Throw e), r2. split; [apply D_bind_throw; exact Hrest|].
        split; [discriminate|]. intros Hq.
        destruct (Hq2 Hq) as (? & ? & Hc & _). discriminate Hc. }
    exists (Normal (u :: updated)), r2.
    split; [rewrite (D_bind_normal _ _ _ _ _ Hrest); reflexivity|].
    split.
    + intros updated' H. injection H as <-.
      constructor; [repeat split; assumption|]. apply Hkept. reflexivity.
    + intros Hq. destruct (Hq1 Hq) as [_ Htr1].
      destruct (Hq2 Hq) as (updated' & new & Hc & Htr2 & Hchanges & Hcount).
      injection Hc as <-.
      eexists (u :: updated), _. split; [reflexivity|].
      split; [rewrite Htr2, Htr1, <- !app_assoc; reflexivity|].
      cbn [app]. split.
      * cbn [List.filter Demo.isChangeEvent].
        rewrite List.filter_app, filter_changeEvents, Hchanges. reflexivity.
      * cbn [List.filter Demo.isChangeEvent negb length].
        rewrite List.filter_app, statusUpdates_changeEvents. cbn [app].
        rewrite Hcount. reflexivity.
Qed.

End DemoPass.

(** X14: in the simulated monitor, when the telemetry agent does not
    throw, a pass of [randomizeStatuses] sends one status event per
    record, and its console lines and incident reports are exactly
    those of the records whose verdict changed, in order: for each of
    them one line, at level error for down, warn for degraded and info
    otherwise, followed by an incident report when the new verdict is
    down. A record whose verdict is unchanged is not logged. *)
Theorem X14_simulation_logs_changes_only (w : Demo.World)
    (tools : list Demo.ToolStatus.t) (r : Demo.Run) :
  (forall h, Demo.agentThrows w h = None) ->
  exists updated r' new,
    Demo.randomizeStatuses w tools r = (Normal tt, (updated, r'))
    /\ Demo.trace r' = Demo.trace r ++ new
    /\ List.filter Demo.isChangeEvent new = Demo.changesBetween tools updated
    /\ length (List.filter (fun ev => negb (Demo.isChangeEvent ev)) new)
       = length tools
    /\ (forall t u, Demo.changeEvents t u = []
                    <-> Demo.ToolStatus.status t = Demo.ToolStatus.status u).
Proof.
  intros Hq.
  destruct (mapTools_run w tools r) as (c & r' & Hrun & _ & Hquiet).
  destruct (Hquiet Hq) as (updated & new & -> & Htr & Hchanges & Hcount).
  exists updated, r', new. unfold Demo.randomizeStatuses. rewrite Hrun.
  repeat split; try assumption; apply changeEvents_nil.
Qed.

Lemma X14_simulation_logs_changes_only_witness :
  exists updated r',
    Demo.randomizeStatuses Demo.cyclingWorld (Demo.initialTools "2026-01-01")
      {| Demo.trace := []; Demo.draws := 0 |}
    = (Normal tt, (updated, r'))
    /\ List.filter Demo.isChangeEvent (Demo.trace r')
       = Demo.changesBetween (Demo.initialTools "2026-01-01") updated.
Proof.
  destruct (X14_simulation_logs_changes_only Demo.cyclingWorld
              (Demo.initialTools "2026-01-01")
              {| Demo.trace := []; Demo.draws := 0 |} (fun _ => eq_refl))
    as (updated & r' & new & Hrun & Htr & Hchanges & _).
  exists updated, r'. split; [exact Hrun|].
  rewrite Htr. exact Hchanges.
Defined.

(** X15: a pass of [randomizeStatuses] is all or nothing. When it
    returns, the array has the same records in the same order, each
    with its identifier and display name unchanged and with fields that
    agree with its new verdict: no latency and "No response from
    service" for down, a latency and "Elevated latency" for degraded, a
    latency and no diagnostic otherwise. When the telemetry agent
    throws during the pass, the array is left as it was. *)
Theorem X15_simulation_all_or_nothing (w : Demo.World)
    (tools : list Demo.ToolStatus.t) (r : Demo.Run) :
  match Demo.randomizeStatuses w tools r with
  | (Normal _, (updated, _)) =>
      Forall2 (fun t u =>
                 Demo.ToolStatus.id u = Demo.ToolStatus.id t
                 /\ Demo.ToolStatus.name u = Demo.ToolStatus.name t
                 /\ Demo.coherent u)
        tools updated
  | (Throw _, (unchanged, _)) => unchanged = tools
  end.
Proof.
  destruct (mapTools_run w tools r) as (c & r' & Hrun & Hkept & _).
  unfold Demo.randomizeStatuses. rewrite Hrun.
  destruct c as [updated|e]; [|reflexivity].
  apply Hkept. reflexivity.
Qed.
